(** * getSystemStatus: the health aggregator of the seeker function app

    A shallow embedding of [getSystemStatus/__init__.py] and the proofs of
    the properties its specification states.

    Modelling conventions.
    - Python [str] is [string]; [str.lower] is modelled on ASCII letters
      (bytes outside 'A'..'Z' are left alone).
    - Python numbers are [pynum]: an [int] is a [Z], a [float] is the
      rational it denotes ([Q]).  Every operation that yields a [float]
      is the exact operation followed by [Float.round], the rounding of
      binary64: to 53 significant bits, to nearest, a tie going to the
      even significand.  The exponent range of binary64 is not modelled:
      the floats of the handler are quotients and products of counts of
      microseconds between two [datetime]s and of lengths of lists, all far
      from overflow and underflow.  [sum] adds from the left, one rounded
      addition per item, as CPython does up to 3.11 (later versions also
      carry a correction for the rounding errors of a float total).
      [format(x, '.Nf')] rounds half to even on the exact value of the
      float, as CPython does.
    - A [dict] that is serialised to JSON is an association list in
      insertion order; a header container is a [gmap] keyed by the
      lower-cased header name (azure.functions compares header names
      without regard to case).
    - The file system, the network, the clock and the logger are the
      [World] and the [State] threaded through a state-and-exception
      monad [M]. *)

From Stdlib Require Import ZArith QArith Qabs Qpower String Ascii List Bool Lia Lqa.
From Stdlib Require Import DecimalString.
From stdpp Require Import base option list gmap strings.

Local Open Scope string_scope.
Local Open Scope Z_scope.
Local Open Scope list_scope.

(** ** Strings *)

Module Str.

Definition lower_ascii (c : ascii) : ascii :=
  let n := N_of_ascii c in
  if ((65 <=? n) && (n <=? 90))%N then ascii_of_N (n + 32) else c.

(** [str.lower()] *)
Fixpoint lower (s : string) : string :=
  match s with
  | EmptyString => EmptyString
  | String c s' => String (lower_ascii c) (lower s')
  end.

(** [s.startswith(p)] *)
Definition startswith (s p : string) : bool := String.prefix p s.

Definition is_digit (c : ascii) : bool :=
  let n := N_of_ascii c in ((48 <=? n) && (n <=? 57))%N.

Fixpoint all_digits (s : string) : bool :=
  match s with
  | EmptyString => true
  | String c s' => is_digit c && all_digits s'
  end.

(** one or more decimal digits *)
Definition is_digits (s : string) : bool :=
  negb (String.eqb s EmptyString) && all_digits s.

End Str.

(** ** Numbers and their formatting *)

Inductive pynum : Type :=
  | PyInt (z : Z)
  | PyFloat (q : Q).

(** the value a number denotes *)
Definition num_value (x : pynum) : Q :=
  match x with
  | PyInt z => inject_Z z
  | PyFloat q => q
  end.

Module Fmt.

(** [str(n)] for a non-negative [int] *)
Definition str_nonneg (n : Z) : string := NilZero.string_of_uint (N.to_uint (Z.to_N n)).

Definition digit (k : Z) : string :=
  String (ascii_of_N (48 + Z.to_N k)) EmptyString.

(** the last [d] decimal digits of [r], padded with zeros on the left *)
Fixpoint frac_digits (d : nat) (r : Z) : string :=
  match d with
  | O => EmptyString
  | S d' => frac_digits d' (r / 10) +:+ digit (r mod 10)
  end.

(** the integer nearest to [a / b] for [0 <= a] and [0 < b], a tie going
    to the even neighbour *)
Definition round_half_even (a b : Z) : Z :=
  let q := a / b in
  let r := a mod b in
  if 2 * r <? b then q
  else if b <? 2 * r then q + 1
  else if Z.even q then q else q + 1.

(** [abs(x) * 10**d] rounded to an integer *)
Definition scaled (d : nat) (x : Q) : Z :=
  round_half_even (Z.abs (Qnum x) * 10 ^ Z.of_nat d) (Z.pos (Qden x)).

(** [format(x, '.{d}f')] *)
Definition format_f (d : nat) (x : Q) : string :=
  let r := scaled d x in
  (if Qnum x <? 0 then "-" else "")
  +:+ str_nonneg (r / 10 ^ Z.of_nat d)
  +:+ match d with
      | O => ""
      | S _ => "." +:+ frac_digits d r
      end.

(** an optional minus sign and one or more digits *)
Definition is_int_text (s : string) : bool :=
  match s with
  | String "-" s' => Str.is_digits s'
  | _ => Str.is_digits s
  end.

(** digits, a point, one digit *)
Fixpoint is_fixed1_text (s : string) : bool :=
  match s with
  | EmptyString => false
  | String c s' =>
      Str.is_digit c &&
      match s' with
      | String "." (String f EmptyString) => Str.is_digit f
      | _ => is_fixed1_text s'
      end
  end.

End Fmt.

(** ** Floats

    A [float] is held as the rational it denotes; [round] takes a rational
    to the nearest float. *)

Module Float.

Definition pow2 (k : Z) : Q := (2 ^ k)%Q.

(** [floor (log2 x)] for a positive [x] *)
Definition ilog2 (x : Q) : Z :=
  let e := Z.log2 (Qnum x) - Z.log2 (Z.pos (Qden x)) in
  if Qle_bool (pow2 e) x then e else e - 1.

(** the integer nearest to [x], a tie going to the even neighbour *)
Definition nearest_even (x : Q) : Z :=
  Z.sgn (Qnum x) * Fmt.round_half_even (Z.abs (Qnum x)) (Z.pos (Qden x)).

(** the float nearest to [x]: with [2^e <= |x| < 2^(e+1)], the multiple of
    [2^(e-52)] nearest to [x], a tie going to the even multiple *)
Definition round (x : Q) : Q :=
  if Qeq_bool x 0 then 0%Q
  else
    let ex := ilog2 (Qabs x) - 52 in
    (inject_Z (nearest_even (x * pow2 (- ex))) * pow2 ex)%Q.

Definition add (x y : Q) : Q := round (x + y).
Definition mul (x y : Q) : Q := round (x * y).
Definition div (x y : Q) : Q := round (x / y).

End Float.

(** ** JSON documents

    [dict] is a Python dict in insertion order, which is the order
    [json.dumps] emits. *)

#[local] Set Warnings "-register-all".
Inductive json : Type :=
  | JStr (s : string)
  | JNum (n : pynum)
  | JArr (l : list json)
  | JObj (d : list (string * json)).

Abbreviation dict := (list (string * json)).

Fixpoint dict_lookup (k : string) (d : dict) : option json :=
  match d with
  | [] => None
  | (k', v) :: d' => if String.eqb k' k then Some v else dict_lookup k d'
  end.

Definition dict_keys (d : dict) : list string := map fst d.

(** [v == s] for a string literal [s] *)
Definition json_eq_str (v : json) (s : string) : bool :=
  match v with
  | JStr t => String.eqb t s
  | _ => false
  end.

(** ** Exceptions, the world and the monad *)

Inductive ExnClass : Type :=
  | RequestException   (* requests.exceptions.RequestException and subclasses *)
  | OSError
  | KeyError
  | TypeError
  | ZeroDivisionError
  | OtherError.

(** an exception object: its class and [str(e)] *)
Record Exn : Type := mkExn { exn_class : ExnClass; exn_str : string }.

Definition is_request_exception (e : Exn) : bool :=
  match exn_class e with
  | RequestException => true
  | _ => false
  end.

(** what [requests.get] does: a response comes back, or it raises *)
Inductive HttpOutcome : Type :=
  | Responded (status_code : Z)
  | Raised (e : Exn).

(** an outbound request as issued *)
Record Request : Type := mkRequest {
  url : string;
  sent_headers : list (string * string);
  timeout : Z
}.

Record World : Type := mkWorld {
  (** [os.listdir(function_dir)]: it raises, or lists the entries, each with
      what [os.path.isdir] answers for it *)
  listdir : Exn + list (string * bool);
  (** the outcome of the [k]-th outbound GET, by URL *)
  http : nat -> string -> HttpOutcome;
  (** the [k]-th reading of [datetime.utcnow()], in microseconds *)
  clock : nat -> Z;
  (** [datetime.isoformat()] *)
  isoformat : Z -> string
}.

Record State : Type := mkState {
  clock_reads : nat;
  requests : list Request;
  error_log : list string
}.

Definition initial : State :=
  {| clock_reads := 0; requests := []; error_log := [] |}.

(** the state once the clock has been read *)
Definition clock_read (st : State) : State :=
  {| clock_reads := S (clock_reads st); requests := requests st;
     error_log := error_log st |}.

(** the state once the request [rq] has gone out *)
Definition request_sent (rq : Request) (st : State) : State :=
  {| clock_reads := clock_reads st; requests := requests st ++ [rq];
     error_log := error_log st |}.

(** the state once [msg] has been logged *)
Definition error_logged (msg : string) (st : State) : State :=
  {| clock_reads := clock_reads st; requests := requests st;
     error_log := error_log st ++ [msg] |}.

Inductive Result (A : Type) : Type :=
  | Ok (a : A)
  | Raise (e : Exn).
Arguments Ok {A} a.
Arguments Raise {A} e.

Definition M (A : Type) : Type := State -> Result A * State.

#[global] Instance M_ret : MRet M := fun A a st => (Ok a, st).

#[global] Instance M_bind : MBind M := fun A B f m st =>
  match m st with
  | (Ok a, st') => f a st'
  | (Raise e, st') => (Raise e, st')
  end.

Definition raise {A : Type} (e : Exn) : M A := fun st => (Raise e, st).

(** [try: body / except <classes accepted by catches> as e: handler e] *)
Definition try_except {A : Type} (body : M A) (catches : Exn -> bool)
    (handler : Exn -> M A) : M A := fun st =>
  match body st with
  | (Raise e, st') => if catches e then handler e st' else (Raise e, st')
  | r => r
  end.

(** ** Operations of the interpreter the handler relies on *)

(** [d[k]] *)
Definition getitem (d : dict) (k : string) : M json :=
  match dict_lookup k d with
  | Some v => mret v
  | None => raise (mkExn KeyError ("'" +:+ k +:+ "'"))
  end.

(** an operand of [+]: a number, or [TypeError] *)
Definition as_number (v : json) : M pynum :=
  match v with
  | JNum n => mret n
  | _ => raise (mkExn TypeError "unsupported operand type(s) for +")
  end.

(** [float(x)]: an [int] is converted to the nearest float *)
Definition as_float (x : pynum) : Q :=
  match x with
  | PyInt z => Float.round (inject_Z z)
  | PyFloat q => q
  end.

(** [a + b]: [int + int] is an [int]; otherwise the operands are taken as
    floats and the sum is rounded *)
Definition py_add (a b : pynum) : pynum :=
  match a, b with
  | PyInt x, PyInt y => PyInt (x + y)
  | _, _ => PyFloat (Float.add (as_float a) (as_float b))
  end.

(** [a * b] *)
Definition py_mul (a b : pynum) : pynum :=
  match a, b with
  | PyInt x, PyInt y => PyInt (x * y)
  | _, _ => PyFloat (Float.mul (as_float a) (as_float b))
  end.

(** the value of [a / b] for a divisor that is not zero: the quotient of
    two [int]s is rounded once; otherwise the operands are taken as floats
    and the quotient is rounded *)
Definition py_quotient (a b : pynum) : Q :=
  match a, b with
  | PyInt x, PyInt y => Float.round (inject_Z x / inject_Z y)
  | _, _ => Float.div (as_float a) (as_float b)
  end.

(** [a / b]: true division, always a [float]; [ZeroDivisionError] on a
    zero divisor *)
Definition py_truediv (a b : pynum) : M pynum :=
  if Qeq_bool (num_value b) 0 then raise (mkExn ZeroDivisionError "division by zero")
  else mret (PyFloat (py_quotient a b)).

(** [format(x, '.{d}f')] of a number *)
Definition py_format_f (d : nat) (x : pynum) : string := Fmt.format_f d (num_value x).

(** ** azure.functions: requests, responses and their headers *)

Module Headers.

(** [h.get(k, default)] *)
Definition get (h : gmap string string) (k default : string) : string :=
  match h !! Str.lower k with
  | Some v => v
  | None => default
  end.

(** [h[k] = v] *)
Definition set (h : gmap string string) (k v : string) : gmap string string :=
  <[Str.lower k := v]> h.

(** the header [k] as sent: absent, or its value *)
Definition sent (h : gmap string string) (k : string) : option string :=
  h !! Str.lower k.

End Headers.

Module HttpRequest.
Record t : Type := mk { method : string; headers : gmap string string }.
End HttpRequest.

(** the body of a response: nothing, or the text [json.dumps(doc)] *)
Inductive Body : Type :=
  | NoBody
  | JsonText (doc : json).

Module HttpResponse.
Record t : Type := mk {
  body : Body;
  mimetype : string;
  status_code : Z;
  headers : gmap string string
}.
Definition set_header (r : t) (k v : string) : t :=
  {| body := body r; mimetype := mimetype r; status_code := status_code r;
     headers := Headers.set (headers r) k v |}.
End HttpResponse.

(** ** The handler *)

Section Handler.

Context (w : World).

(** [datetime.utcnow()] *)
Definition utcnow : M Z := fun st =>
  (Ok (clock w (clock_reads st)), clock_read st).

(** [os.listdir(function_dir)], each entry paired with [os.path.isdir] *)
Definition os_listdir : M (list (string * bool)) := fun st =>
  match listdir w with
  | inl e => (Raise e, st)
  | inr entries => (Ok entries, st)
  end.

(** [requests.get(url, headers=..., timeout=...)]; the response object is
    its [status_code] *)
Definition requests_get (u : string) (hs : list (string * string)) (t : Z) : M Z :=
  fun st =>
    let st' := request_sent (mkRequest u hs t) st in
    match http w (length (requests st)) u with
    | Responded code => (Ok code, st')
    | Raised e => (Raise e, st')
    end.

(** [logging.error(msg)] *)
Definition logging_error (msg : string) : M unit := fun st =>
  (Ok tt, error_logged msg st).

(** the condition of the [if] in the loop of [get_function_list] *)
Definition is_function_dir (item : string) (isdir : bool) : bool :=
  isdir
  && negb (Str.startswith item "__")
  && negb (Str.startswith item ".")
  && negb (String.eqb item "tests")
  && negb (String.eqb (Str.lower item) "getsystemstatus").

Definition get_function_list : M (list string) :=
  entries ← os_listdir;
  mret (fold_left
          (fun functions (entry : string * bool) =>
             let (item, isdir) := entry in
             if is_function_dir item isdir
             then functions ++ [Str.lower item]
             else functions)
          entries []).

Definition base_url : string := "https://seeker-functions.azurewebsites.net/api".

(** [(end - start).total_seconds() * 1000]: [total_seconds()] is the
    microseconds of the difference, an [int], divided by [10**6]; the
    product with 1000 is rounded again *)
Definition elapsed_ms (start_time end_time : Z) : Q :=
  Float.mul (Float.div (inject_Z (end_time - start_time)) (inject_Z 1000000))
            (inject_Z 1000).

Definition check_function (func_name : string) : M dict :=
  try_except
    (start_time ← utcnow;
     response ← requests_get (base_url +:+ "/" +:+ func_name)
                  [("x-ms-client-principal-id", "healthcheck")] 5;
     end_time ← utcnow;
     let elapsed := elapsed_ms start_time end_time in
     mret [("name", JStr func_name);
           ("status", JStr (if response <? 500 then "running" else "error"));
           ("response_time", JStr (Fmt.format_f 0 elapsed +:+ "ms"));
           ("status_code", JNum (PyInt response));
           ("elapsed", JNum (PyFloat elapsed))])
    is_request_exception
    (fun e =>
     mret [("name", JStr func_name);
           ("status", JStr "error");
           ("response_time", JStr "0ms");
           ("status_code", JNum (PyInt 500));
           ("elapsed", JNum (PyInt 0));
           ("error", JStr (exn_str e))]).

(** [[check_function(func_name) for func_name in names]] *)
Fixpoint check_all (names : list string) : M (list dict) :=
  match names with
  | [] => mret []
  | func_name :: names' =>
      r ← check_function func_name;
      rs ← check_all names';
      mret (r :: rs)
  end.

(** [[f for f in function_statuses if f["status"] == "running"]] *)
Fixpoint healthy_of (function_statuses : list dict) : M (list dict) :=
  match function_statuses with
  | [] => mret []
  | f :: fs =>
      s ← getitem f "status";
      hs ← healthy_of fs;
      mret (if json_eq_str s "running" then f :: hs else hs)
  end.

(** [sum(f["elapsed"] for f in function_statuses)], from the running total *)
Fixpoint sum_elapsed (function_statuses : list dict) (total : pynum) : M pynum :=
  match function_statuses with
  | [] => mret total
  | f :: fs =>
      v ← getitem f "elapsed";
      x ← as_number v;
      sum_elapsed fs (py_add total x)
  end.

Definition allowed_origins : list string :=
  ["http://localhost:5173"; "https://seeker.cityoftraitors.com"].

Definition add_cors_headers (req : HttpRequest.t) (response : HttpResponse.t)
    : HttpResponse.t :=
  let origin := Headers.get (HttpRequest.headers req) "Origin" "" in
  let response :=
    if bool_decide (origin ∈ allowed_origins)
    then HttpResponse.set_header response "Access-Control-Allow-Origin" origin
    else response in
  let response :=
    HttpResponse.set_header response "Access-Control-Allow-Methods" "GET, OPTIONS" in
  HttpResponse.set_header response "Access-Control-Allow-Headers" "Content-Type".

Definition host_names : json := JArr [JStr "seeker-functions.azurewebsites.net"].

(** the local variables of the [try] block once the metrics are computed *)
Record Aggregates : Type := mkAggregates {
  function_statuses : list dict;
  healthy_functions : list dict;
  total_response_time : pynum;
  num_checked_functions : Z;
  avg_response_time : pynum;
  health_percentage : pynum
}.

(** the [try] block of [main] up to the metrics *)
Definition aggregate : M Aggregates :=
  all_functions ← get_function_list;
  let functions_to_check :=
    filter (fun f => Str.lower f ≠ "callback") all_functions in
  function_statuses ← check_all functions_to_check;
  healthy_functions ← healthy_of function_statuses;
  total_response_time ← sum_elapsed function_statuses (PyInt 0);
  let num_checked_functions := Z.of_nat (length functions_to_check) in
  avg_response_time ←
    (if 0 <? num_checked_functions
     then py_truediv total_response_time (PyInt num_checked_functions)
     else mret (PyInt 0));
  health_percentage ←
    (if 0 <? num_checked_functions
     then x ← py_truediv (PyInt (Z.of_nat (length healthy_functions)))
                (PyInt num_checked_functions);
          mret (py_mul x (PyInt 100))
     else mret (PyInt 0));
  mret (mkAggregates function_statuses healthy_functions total_response_time
          num_checked_functions avg_response_time health_percentage).

(** the [status] dict of the [try] block *)
Definition status_of (a : Aggregates) (now : Z) : dict :=
  let all_healthy :=
    Z.of_nat (length (healthy_functions a)) =? num_checked_functions a in
  [("state", JStr (if all_healthy then "running" else "degraded"));
   ("availability", JStr (if all_healthy then "normal" else "limited"));
   ("last_checked", JStr (isoformat w now));
   ("host_names", host_names);
   ("functions", JArr (map JObj (function_statuses a)));
   ("metrics",
    JArr [JObj [("name", JStr "Total Functions Checked");
                ("value", JNum (PyInt (num_checked_functions a)))];
          JObj [("name", JStr "Healthy Functions");
                ("value", JNum (PyInt (Z.of_nat (length (healthy_functions a)))))];
          JObj [("name", JStr "Average Response Time");
                ("value", JStr (py_format_f 0 (avg_response_time a) +:+ "ms"))];
          JObj [("name", JStr "Health Percentage");
                ("value", JStr (py_format_f 1 (health_percentage a) +:+ "%"))]])].

(** the [status] dict of the [except] block *)
Definition error_status (e : Exn) (now : Z) : dict :=
  [("state", JStr "error");
   ("availability", JStr "limited");
   ("last_checked", JStr (isoformat w now));
   ("host_names", host_names);
   ("error", JStr (exn_str e))].

Definition json_response (status : dict) : HttpResponse.t :=
  HttpResponse.mk (JsonText (JObj status)) "application/json" 200 ∅.

(** the [try] block of [main] *)
Definition main_try (req : HttpRequest.t) : M HttpResponse.t :=
  a ← aggregate;
  now ← utcnow;
  mret (add_cors_headers req (json_response (status_of a now))).

(** the [except Exception as e] block of [main] *)
Definition main_except (req : HttpRequest.t) (e : Exn) : M HttpResponse.t :=
  _ ← logging_error ("Error getting system status: " +:+ exn_str e);
  now ← utcnow;
  mret (add_cors_headers req (json_response (error_status e now))).

Definition main (req : HttpRequest.t) : M HttpResponse.t :=
  if String.eqb (HttpRequest.method req) "OPTIONS"
  then mret (add_cors_headers req (HttpResponse.mk NoBody "text/plain" 200 ∅))
  else try_except (main_try req) (fun _ => true) (main_except req).

End Handler.

(** ** Vocabulary of the specification *)

(** the request a probe of [func_name] sends *)
Definition probe_request (func_name : string) : Request :=
  mkRequest (base_url +:+ "/" +:+ func_name)
    [("x-ms-client-principal-id", "healthcheck")] 5.

(** a ProbeResult whose status is "running" *)
Definition is_running (r : dict) : bool :=
  match dict_lookup "status" r with
  | Some v => json_eq_str v "running"
  | None => false
  end.

(** healthy count: the number of probe results with status "running" *)
Definition healthy_count (rs : list dict) : nat :=
  length (List.filter is_running rs).

(** the value of the [elapsed] field of a ProbeResult *)
Definition elapsed_of (r : dict) : Q :=
  match dict_lookup "elapsed" r with
  | Some (JNum x) => num_value x
  | _ => 0%Q
  end.

(** the [elapsed] field of a ProbeResult as the number it holds *)
Definition elapsed_num (r : dict) : pynum :=
  match dict_lookup "elapsed" r with
  | Some (JNum x) => x
  | _ => PyInt 0
  end.

(** the sum of the [elapsed] fields as [sum] computes it: from the [int]
    0, the fields added one by one from the left *)
Definition elapsed_sum (rs : list dict) : pynum :=
  fold_left py_add (map elapsed_num rs) (PyInt 0).

(** the [name] field of a ProbeResult *)
Definition name_of (r : dict) : option string :=
  match dict_lookup "name" r with
  | Some (JStr s) => Some s
  | _ => None
  end.

(** the exclusions of discovery in the words of the specification: the
    aggregator's own name in any case, a name starting with a double
    underscore or a dot, and the literal name "tests" *)
Definition excluded (item : string) : bool :=
  String.eqb (Str.lower item) "getsystemstatus"
  || Str.startswith item "__"
  || Str.startswith item "."
  || String.eqb item "tests".

(** the names a listing yields: its directories that are not excluded,
    lower-cased, in listing order *)
Definition discovered (entries : list (string * bool)) : list string :=
  map (fun e => Str.lower (fst e))
      (List.filter (fun e => snd e && negb (excluded (fst e))) entries).

(** the probe set: the discovered names without "callback" *)
Definition probe_set (names : list string) : list string :=
  filter (fun f => f ≠ "callback") names.

(** the two shapes of a ProbeResult *)
Definition responded_result (func_name : string) (code : Z) (elapsed : Q) : dict :=
  [("name", JStr func_name);
   ("status", JStr (if code <? 500 then "running" else "error"));
   ("response_time", JStr (Fmt.format_f 0 elapsed +:+ "ms"));
   ("status_code", JNum (PyInt code));
   ("elapsed", JNum (PyFloat elapsed))].

Definition failed_result (func_name : string) (e : Exn) : dict :=
  [("name", JStr func_name);
   ("status", JStr "error");
   ("response_time", JStr "0ms");
   ("status_code", JNum (PyInt 500));
   ("elapsed", JNum (PyInt 0));
   ("error", JStr (exn_str e))].

(** what [check_function func_name] can return *)
Inductive ProbeResult (func_name : string) (r : dict) : Prop :=
  | result_responded (code : Z) (elapsed : Q) :
      r = responded_result func_name code elapsed -> ProbeResult func_name r
  | result_failed (e : Exn) :
      r = failed_result func_name e -> ProbeResult func_name r.

(** what the [try] block of [main] has computed when it gets to the
    metrics, started in [st] and now in [st'], from the listing [entries] *)
Record aggregated (w : World) (st st' : State) (a : Aggregates)
    (entries : list (string * bool)) : Prop := {
  agg_listdir : listdir w = inr entries;
  agg_statuses :
    Forall2 ProbeResult (probe_set (discovered entries)) (function_statuses a);
  agg_healthy : healthy_functions a = List.filter is_running (function_statuses a);
  agg_total : total_response_time a = elapsed_sum (function_statuses a);
  agg_num : num_checked_functions a = Z.of_nat (length (function_statuses a));
  agg_avg :
    avg_response_time a =
    if 0 <? num_checked_functions a
    then PyFloat (py_quotient (total_response_time a)
                    (PyInt (num_checked_functions a)))
    else PyInt 0;
  agg_pct :
    health_percentage a =
    if 0 <? num_checked_functions a
    then py_mul (PyFloat (py_quotient (PyInt (Z.of_nat (length (healthy_functions a))))
                            (PyInt (num_checked_functions a))))
                (PyInt 100)
    else PyInt 0;
  agg_requests :
    requests st' =
    requests st ++ map probe_request (probe_set (discovered entries));
  agg_log : error_log st' = error_log st
}.

(** the value of the metric called [metric] in a report *)
Definition metric_value (report : dict) (metric : string) : option json :=
  match dict_lookup "metrics" report with
  | Some (JArr ms) =>
      (fix find (ms : list json) : option json :=
         match ms with
         | [] => None
         | JObj m :: ms' =>
             match dict_lookup "name" m with
             | Some v => if json_eq_str v metric then dict_lookup "value" m else find ms'
             | None => find ms'
             end
         | _ :: ms' => find ms'
         end) ms
  | _ => None
  end.

(** ** A deployment to evaluate the handler on

    Nine entries in the function app directory; the first probe is answered
    with 200, the second times out, any later one is answered with 503; the
    clock advances 12.5 ms between two readings. *)
Definition demo_world : World := {|
  listdir := inr [("getUser", true); ("Callback", true); ("tests", true);
                  ("__pycache__", true); ("host.json", false);
                  ("GetSystemStatus", true); ("createUserTable", true);
                  (".git", true); ("Tests", true)];
  http := fun k _ =>
    match k with
    | O => Responded 200
    | S O => Raised (mkExn RequestException "timed out")
    | _ => Responded 503
    end;
  clock := fun k => Z.of_nat k * 12500;
  isoformat := fun t => "t+" +:+ Fmt.str_nonneg t +:+ "us"
|}.

(** the same deployment when the directory cannot be listed *)
Definition broken_world : World := {|
  listdir := inl (mkExn OSError "[Errno 13] Permission denied");
  http := http demo_world;
  clock := clock demo_world;
  isoformat := isoformat demo_world
|}.


Definition demo_request : HttpRequest.t :=
  HttpRequest.mk "GET" {[ "origin" := "http://localhost:5173" ]}.


(** the report a response carries *)
Definition report_of (resp : HttpResponse.t) : dict :=
  match HttpResponse.body resp with
  | JsonText (JObj report) => report
  | _ => []
  end.

(** what the handler answers to [demo_request] in [demo_world], and the
    state it leaves *)
Definition demo_response : HttpResponse.t :=
  match fst (main demo_world demo_request initial) with
  | Ok resp => resp
  | Raise _ => HttpResponse.mk NoBody "" 0 ∅
  end.

Definition demo_final : State := snd (main demo_world demo_request initial).

(** the same in [broken_world] *)
Definition broken_response : HttpResponse.t :=
  match fst (main broken_world demo_request initial) with
  | Ok resp => resp
  | Raise _ => HttpResponse.mk NoBody "" 0 ∅
  end.

Definition broken_final : State := snd (main broken_world demo_request initial).

(** the metrics the handler computes for [demo_world] *)
Definition demo_aggregates : Aggregates :=
  match fst (aggregate demo_world initial) with
  | Ok a => a
  | Raise _ => mkAggregates [] [] (PyInt 0) 0 (PyInt 0) (PyInt 0)
  end.

(** ** Further vocabulary *)

(** the clock readings taken by the probe that returned [r]: one before
    the request, and one more when a response came back *)
Definition probe_reads (r : dict) : nat :=
  match dict_lookup "error" r with
  | Some _ => 1
  | None => 2
  end.

(** a ProbeResult whose [elapsed] is 0 or the difference of two consecutive
    readings of [w]'s clock *)
Inductive Measured (w : World) (r : dict) : Prop :=
  | measured_response (func_name : string) (code : Z) (k : nat) :
      r = responded_result func_name code (elapsed_ms (clock w k) (clock w (S k))) ->
      Measured w r
  | measured_failure (func_name : string) (e : Exn) :
      r = failed_result func_name e -> Measured w r.

(** the deployment of [demo_world] when the second request raises
    something that is not a [RequestException] *)
Definition crashing_world : World := {|
  listdir := listdir demo_world;
  http := fun k _ =>
    match k with
    | O => Responded 200
    | _ => Raised (mkExn OtherError "unexpected")
    end;
  clock := clock demo_world;
  isoformat := isoformat demo_world
|}.

(** the deployment of [demo_world] when every request is answered with 204 *)
Definition healthy_world : World := {|
  listdir := listdir demo_world;
  http := fun _ _ => Responded 204;
  clock := clock demo_world;
  isoformat := isoformat demo_world
|}.

(** a deployment with nothing to probe *)
Definition empty_world : World := {|
  listdir := inr [("getSystemStatus", true); ("callback", true);
                  ("host.json", false); ("tests", true)];
  http := http demo_world;
  clock := clock demo_world;
  isoformat := isoformat demo_world
|}.

Definition options_request : HttpRequest.t :=
  HttpRequest.mk "OPTIONS" {[ "origin" := "https://evil.example" ]}.

Definition post_request : HttpRequest.t :=
  HttpRequest.mk "POST" ∅.

(** what [main] answers, or an empty response when it raises *)
Definition response_of (x : Result HttpResponse.t * State) : HttpResponse.t :=
  match fst x with
  | Ok resp => resp
  | Raise _ => HttpResponse.mk NoBody "" 0 ∅
  end.

(** * Proofs *)

(** ** Strings and formatting *)

Module StrFacts.
Import Str.

Ltac by_ascii c := destruct c as [[] [] [] [] [] [] [] []]; vm_compute; try reflexivity; try discriminate; auto.

Lemma lower_ascii_idemp (c : ascii) : lower_ascii (lower_ascii c) = lower_ascii c.
Proof. by_ascii c. Qed.

Lemma lower_idemp (s : string) : lower (lower s) = lower s.
Proof. induction s as [|c s IH]; simpl; [reflexivity|]. now rewrite lower_ascii_idemp, IH. Qed.

Lemma lower_ascii_underscore (c : ascii) : lower_ascii c = "_"%char -> c = "_"%char.
Proof. by_ascii c. Qed.

Lemma lower_ascii_dot (c : ascii) : lower_ascii c = "."%char -> c = "."%char.
Proof. by_ascii c. Qed.

Lemma ascii_dec_lower (c a : ascii) (A : Type) (x y : A) :
  lower_ascii c = c -> (forall b, lower_ascii b = c -> b = c) ->
  (if ascii_dec c (lower_ascii a) then x else y) = (if ascii_dec c a then x else y).
Proof.
  intros Hc Hinv.
  destruct (ascii_dec c (lower_ascii a)) as [E|E], (ascii_dec c a) as [F|F];
    try reflexivity; exfalso.
  - apply F. symmetry. apply Hinv. now symmetry.
  - apply E. now subst a.
Qed.

Lemma startswith_lower_dunder (s : string) :
  startswith (lower s) "__" = startswith s "__".
Proof.
  unfold startswith.
  destruct s as [|a [|b s]]; cbn [String.prefix lower]; try reflexivity.
  - rewrite (ascii_dec_lower "_" a); auto using lower_ascii_underscore.
  - rewrite (ascii_dec_lower "_" a); auto using lower_ascii_underscore.
    destruct (ascii_dec "_" a); [|reflexivity].
    rewrite (ascii_dec_lower "_" b); auto using lower_ascii_underscore.
    destruct (ascii_dec "_" b); [|reflexivity].
    now destruct s.
Qed.

Lemma startswith_lower_dot (s : string) :
  startswith (lower s) "." = startswith s ".".
Proof.
  unfold startswith.
  destruct s as [|a s]; cbn [String.prefix lower]; try reflexivity.
  rewrite (ascii_dec_lower "." a); auto using lower_ascii_dot.
  destruct (ascii_dec "." a); [|reflexivity].
  now destruct s.
Qed.

Lemma is_digit_not_minus (c : ascii) : is_digit c = true -> c <> "-"%char.
Proof. by_ascii c. Qed.

Lemma all_digits_app (s t : string) :
  all_digits (s +:+ t) = all_digits s && all_digits t.
Proof.
  induction s as [|c s IH]; simpl; [reflexivity|].
  now rewrite IH, andb_assoc.
Qed.

End StrFacts.

Module FmtFacts.
Import Str StrFacts Fmt.

Lemma round_half_even_bound (a b : Z) :
  0 <= a -> 0 < b ->
  0 <= round_half_even a b /\ 2 * Z.abs (round_half_even a b * b - a) <= b.
Proof.
  intros Ha Hb. unfold round_half_even.
  pose proof (Z.div_mod a b ltac:(lia)) as E.
  pose proof (Z.mod_pos_bound a b Hb) as R.
  pose proof (Z.div_pos a b Ha Hb) as P.
  set (q := a / b) in *. set (r := a mod b) in *.
  destruct (Z.ltb_spec (2 * r) b); [split; [lia|nia]|].
  destruct (Z.ltb_spec b (2 * r)); [split; [lia|nia]|].
  destruct (Z.even q); split; try lia; nia.
Qed.

Lemma string_of_uint_all_digits (d : Decimal.uint) :
  all_digits (NilEmpty.string_of_uint d) = true.
Proof. induction d; simpl; auto. Qed.

Lemma str_nonneg_digits (n : Z) : is_digits (str_nonneg n) = true.
Proof.
  unfold str_nonneg, is_digits, NilZero.string_of_uint.
  destruct (N.to_uint (Z.to_N n)) as [|d|d|d|d|d|d|d|d|d|d];
    simpl; try reflexivity; apply string_of_uint_all_digits.
Qed.

Lemma digit_is_digit (k : Z) : 0 <= k < 10 -> exists c, digit k = String c EmptyString /\ is_digit c = true.
Proof.
  intros H. unfold digit. eexists; split; [reflexivity|].
  assert (k = 0 \/ k = 1 \/ k = 2 \/ k = 3 \/ k = 4 \/ k = 5 \/ k = 6 \/ k = 7 \/ k = 8 \/ k = 9) as C by lia.
  repeat destruct C as [C|C]; subst k; reflexivity.
Qed.

Lemma is_int_text_digits (s : string) : is_digits s = true -> is_int_text s = true.
Proof.
  destruct s as [|c s]; [discriminate|].
  unfold is_digits. simpl. intros H.
  apply andb_prop in H as [Hc Hs].
  pose proof (is_digit_not_minus c Hc) as N.
  unfold is_int_text.
  destruct c as [[] [] [] [] [] [] [] []]; try (exfalso; apply N; reflexivity);
    unfold is_digits; simpl; rewrite ?Hs; vm_compute in Hc; try discriminate; reflexivity.
Qed.

Lemma append_cons (c : ascii) (s t : string) : String c s +:+ t = String c (s +:+ t).
Proof. reflexivity. Qed.

Lemma append_nil_r (s : string) : s +:+ "" = s.
Proof. induction s as [|c s IH]; [reflexivity|]. now rewrite append_cons, IH. Qed.

Lemma format_f_0 (x : Q) :
  format_f 0 x = (if Qnum x <? 0 then "-" else "") +:+ str_nonneg (scaled 0 x).
Proof.
  unfold format_f. cbn [Z.of_nat]. rewrite Z.pow_0_r, Z.div_1_r, append_nil_r.
  reflexivity.
Qed.

Lemma format_f_0_int_text (x : Q) : is_int_text (format_f 0 x) = true.
Proof.
  rewrite format_f_0. destruct (Qnum x <? 0).
  - apply str_nonneg_digits.
  - apply is_int_text_digits, str_nonneg_digits.
Qed.

Lemma scaled_0_nearest (x : Q) :
  0 <= scaled 0 x /\ (Qabs (Qabs x - inject_Z (scaled 0 x)) <= 1 # 2)%Q.
Proof.
  unfold scaled. cbn [Z.of_nat]. rewrite Z.pow_0_r, Z.mul_1_r.
  destruct x as [n d]. cbn [Qnum Qden].
  destruct (round_half_even_bound (Z.abs n) (Z.pos d)) as [H0 H1]; [lia..|].
  split; [exact H0|].
  set (r := round_half_even (Z.abs n) (Z.pos d)) in *.
  apply Qabs_Qle_condition. unfold Qabs, Qle, Qminus, Qplus, Qopp, inject_Z. cbn.
  split; nia.
Qed.

Lemma is_fixed1_text_build (ds : string) (f : ascii) :
  is_digits ds = true -> is_digit f = true ->
  is_fixed1_text (ds +:+ "." +:+ String f EmptyString) = true.
Proof.
  intros Hd Hf. destruct ds as [|c ds]; [discriminate|].
  unfold is_digits in Hd. cbn [String.eqb negb andb all_digits] in Hd.
  revert c Hd. induction ds as [|c' ds IH]; intros c Hd.
  - change (is_fixed1_text (String c (String "." (String f ""))) = true).
    cbn [all_digits] in Hd. rewrite andb_true_r in Hd.
    cbn. now rewrite Hd, Hf.
  - cbn [all_digits] in Hd. apply andb_prop in Hd as [Hc Hd].
    specialize (IH c' Hd).
    rewrite !append_cons in *.
    cbn [is_fixed1_text]. rewrite Hc. cbn [andb].
    cbn [is_fixed1_text] in IH.
    assert (c' <> "."%char) as Hdot.
    { cbn [all_digits] in Hd. apply andb_prop in Hd as [Hd _]. revert Hd. clear. by_ascii c'. }
    destruct c' as [[] [] [] [] [] [] [] []]; try (exfalso; apply Hdot; reflexivity); exact IH.
Qed.

Lemma format_f_1_fixed1_text (x : Q) :
  0 <= Qnum x -> is_fixed1_text (format_f 1 x) = true.
Proof.
  intros Hx. unfold format_f.
  destruct (Z.ltb_spec (Qnum x) 0); [lia|].
  cbn [frac_digits String.append].
  destruct (digit_is_digit (scaled 1 x mod 10)) as (c & -> & Hc).
  { apply Z.mod_pos_bound. lia. }
  apply is_fixed1_text_build; [apply str_nonneg_digits | exact Hc].
Qed.

End FmtFacts.

Example format_f_samples :
  Fmt.format_f 0 (5 # 2) = "2" /\ Fmt.format_f 0 (7 # 2) = "4" /\
  Fmt.format_f 0 (-(4 # 10)) = "-0" /\ Fmt.format_f 1 (100 # 3) = "33.3" /\
  Fmt.format_f 1 (1 # 4) = "0.2" /\ Fmt.format_f 1 (3 # 4) = "0.8" /\
  Fmt.format_f 0 (123456 # 1000) = "123" /\ Fmt.format_f 1 100 = "100.0".
Proof. repeat split; vm_compute; reflexivity. Qed.

(** ** Floats *)

Module FloatFacts.
Import Fmt Float.

Lemma pow2_pos (k : Z) : (0 < pow2 k)%Q.
Proof. apply Qpower_0_lt. reflexivity. Qed.

Lemma pow2_add (a b : Z) : (pow2 (a + b) == pow2 a * pow2 b)%Q.
Proof. apply Qpower_plus. discriminate. Qed.

Lemma pow2_le (a b : Z) : a <= b -> (pow2 a <= pow2 b)%Q.
Proof. intros H. apply Qpower_le_compat_l; [exact H|discriminate]. Qed.

Lemma pow2_lt (a b : Z) : a < b -> (pow2 a < pow2 b)%Q.
Proof. intros H. apply Qpower_lt_compat_l; [exact H|reflexivity]. Qed.

Lemma pow2_inject (k : Z) : 0 <= k -> (pow2 k == inject_Z (2 ^ k))%Q.
Proof. intros H. unfold pow2. now rewrite Zpower_Qpower. Qed.

Lemma pow2_succ (k : Z) : (pow2 (k + 1) == 2 * pow2 k)%Q.
Proof. rewrite pow2_add. change (pow2 1) with 2%Q. ring. Qed.

Lemma pow2_opp (k : Z) : (pow2 k * pow2 (- k) == 1)%Q.
Proof. rewrite <- pow2_add, Z.add_opp_diag_r. reflexivity. Qed.

Lemma log2_bounds (n : Z) :
  0 < n -> (pow2 (Z.log2 n) <= inject_Z n)%Q /\ (inject_Z n < pow2 (Z.log2 n + 1))%Q.
Proof.
  intros Hn. destruct (Z.log2_spec n Hn) as [L U].
  pose proof (Z.log2_nonneg n) as P.
  rewrite !pow2_inject by lia. rewrite <- Zle_Qle, <- Zlt_Qlt.
  replace (Z.log2 n + 1) with (Z.succ (Z.log2 n)) by lia. split; assumption.
Qed.

Lemma ilog2_spec (x : Q) :
  (0 < x)%Q -> (pow2 (ilog2 x) <= x)%Q /\ (x < pow2 (ilog2 x + 1))%Q.
Proof.
  intros Hx. destruct x as [n d]. unfold ilog2. cbn [Qnum Qden].
  assert (0 < n) as Hn by (unfold Qlt in Hx; cbn in Hx; lia).
  destruct (log2_bounds n Hn) as [Ln Un].
  destruct (log2_bounds (Z.pos d) ltac:(lia)) as [Ld Ud].
  set (ln := Z.log2 n) in *. set (ld := Z.log2 (Z.pos d)) in *.
  assert (n # d == inject_Z n / inject_Z (Z.pos d))%Q as E by apply Qmake_Qdiv.
  assert (0 < inject_Z (Z.pos d))%Q as Dpos by reflexivity.
  assert (inject_Z n == (n # d) * inject_Z (Z.pos d))%Q as En.
  { rewrite E. field. discriminate. }
  pose proof (pow2_pos ld) as Pld.
  pose proof (pow2_pos (ln - ld)) as Pe.
  assert (pow2 (ln + 1) == 2 * pow2 (ln - ld) * pow2 ld)%Q as E1.
  { rewrite pow2_succ. replace ln with ((ln - ld) + ld) at 1 by lia.
    rewrite pow2_add. ring. }
  assert (pow2 ln == pow2 (ln - ld) * pow2 ld)%Q as E2.
  { replace ln with ((ln - ld) + ld) at 1 by lia. apply pow2_add. }
  assert (pow2 (ld + 1) == 2 * pow2 ld)%Q as E3 by apply pow2_succ.
  rewrite En in Ln, Un. rewrite E1 in Un. rewrite E2 in Ln. rewrite E3 in Ud.
  set (X := (n # d)%Q) in *. set (D := inject_Z (Z.pos d)) in *.
  set (A := pow2 (ln - ld)) in *. set (B := pow2 ld) in *.
  destruct (Qle_bool A X) eqn:T.
  - apply Qle_bool_iff in T. split; [exact T|].
    rewrite pow2_succ. fold A.
    (* X * D < 2 A B, B <= D *)
    apply Qnot_le_lt. intros C.
    assert (2 * A * B <= X * D)%Q; [|lra].
    apply Qle_trans with (2 * A * D)%Q.
    + apply Qmult_le_l; [nra|exact Ld].
    + apply Qmult_le_r; [exact Dpos|exact C].
  - assert (X < A)%Q as T'.
    { apply Qnot_le_lt. intros C. apply Qle_bool_iff in C. congruence. }
    replace (ln - ld - 1 + 1) with (ln - ld) by lia. fold A. split; [|exact T'].
    assert (A == 2 * pow2 (ln - ld - 1))%Q as E4.
    { rewrite <- pow2_succ. now replace (ln - ld - 1 + 1) with (ln - ld) by lia. }
    set (A' := pow2 (ln - ld - 1)) in *.
    (* A B <= X D, D < 2 B  =>  A' <= X *)
    apply Qnot_lt_le. intros C.
    assert (X * D < A * B)%Q; [|lra].
    apply Qlt_le_trans with (A' * D)%Q.
    + apply Qmult_lt_r; [exact Dpos|exact C].
    + rewrite E4. assert (0 < A')%Q by apply pow2_pos.
      setoid_replace (2 * A' * B)%Q with (A' * (2 * B))%Q using relation Qeq by ring.
      apply Qmult_le_l; [assumption|lra].
Qed.

Lemma round_half_even_spec (a b : Z) :
  0 <= a -> 0 < b ->
  let m := round_half_even a b in
  0 <= m /\ 2 * Z.abs (m * b - a) <= b /\
  (2 * Z.abs (m * b - a) = b -> Z.even m = true).
Proof.
  intros Ha Hb. unfold round_half_even.
  pose proof (Z.div_mod a b ltac:(lia)) as E.
  pose proof (Z.mod_pos_bound a b Hb) as R.
  pose proof (Z.div_pos a b Ha Hb) as P.
  set (q := a / b) in *. set (r := a mod b) in *.
  destruct (Z.ltb_spec (2 * r) b); [split; [lia|split; nia]|].
  destruct (Z.ltb_spec b (2 * r)); [split; [lia|split; nia]|].
  destruct (Z.even q) eqn:Ev.
  - split; [lia|]. split; [nia|]. intros _. exact Ev.
  - split; [lia|]. split; [nia|]. intros _.
    rewrite Z.even_add, Ev. reflexivity.
Qed.

Lemma nearest_even_spec (x : Q) :
  (Qabs (inject_Z (nearest_even x) - x) <= 1 # 2)%Q /\
  ((Qabs (inject_Z (nearest_even x) - x) == 1 # 2)%Q -> Z.even (nearest_even x) = true).
Proof.
  destruct x as [n d]. unfold nearest_even. cbn [Qnum Qden].
  destruct (round_half_even_spec (Z.abs n) (Z.pos d)) as (H0 & H1 & H2); [lia..|].
  set (r := round_half_even (Z.abs n) (Z.pos d)) in *.
  assert (Z.abs (Z.sgn n * r * Z.pos d - n) = Z.abs (r * Z.pos d - Z.abs n)) as E.
  { destruct n; cbn [Z.sgn Z.abs] in *; [|lia..].
    assert (r = 0) as -> by nia. reflexivity. }
  assert (Qabs (inject_Z (Z.sgn n * r) - (n # d))
          = (Z.abs (Z.sgn n * r * Z.pos d - n) # d)%Q) as Q1.
  { unfold Qabs, Qminus, Qplus, Qopp, inject_Z. cbn [Qnum Qden].
    f_equal. f_equal. lia. }
  rewrite Q1, E. split.
  - unfold Qle. cbn [Qnum Qden]. lia.
  - unfold Qeq. cbn [Qnum Qden]. intros T.
    rewrite Z.even_mul. rewrite H2 by lia. apply orb_true_r.
Qed.

Lemma nearest_even_le (x y : Q) : (x <= y)%Q -> nearest_even x <= nearest_even y.
Proof.
  intros Hxy.
  destruct (nearest_even_spec x) as [Bx Tx], (nearest_even_spec y) as [By Ty].
  set (m := nearest_even x) in *. set (m' := nearest_even y) in *.
  destruct (Z.le_gt_cases m m') as [|Hgt]; [assumption|exfalso].
  assert (inject_Z m' + 1 <= inject_Z m)%Q as Hz.
  { change 1%Q with (inject_Z 1). rewrite <- inject_Z_plus, <- Zle_Qle. lia. }
  apply Qabs_Qle_condition in Bx, By.
  assert (inject_Z m - x == 1 # 2)%Q as Ex by lra.
  assert (inject_Z m' - y == -(1 # 2))%Q as Ey by lra.
  assert (Z.even m = true) as Em.
  { apply Tx. rewrite Ex. reflexivity. }
  assert (Z.even m' = true) as Em'.
  { apply Ty. rewrite Ey. reflexivity. }
  assert (inject_Z m == inject_Z m' + 1)%Q as Es by lra.
  change 1%Q with (inject_Z 1) in Es. rewrite <- inject_Z_plus in Es.
  apply (proj1 (inject_Z_injective _ _)) in Es. clearbody m m'. subst m. rewrite Z.even_add, Em' in Em.
  discriminate.
Qed.

Lemma nearest_even_inject (z : Z) : nearest_even (inject_Z z) = z.
Proof.
  unfold nearest_even, inject_Z, round_half_even. cbn [Qnum Qden].
  rewrite Z.div_1_r, Z.mod_1_r.
  change (2 * 0 <? 1) with true. cbv iota. destruct z; cbn [Z.sgn Z.abs]; lia.
Qed.

Lemma nearest_even_eq (x y : Q) : (x == y)%Q -> nearest_even x = nearest_even y.
Proof.
  intros E. apply Z.le_antisymm; apply nearest_even_le; rewrite E; apply Qle_refl.
Qed.

Lemma nearest_even_opp (x : Q) : nearest_even (- x) = - nearest_even x.
Proof.
  destruct x as [n d]. unfold nearest_even. cbn [Qnum Qden Qopp].
  rewrite Z.abs_opp, Z.sgn_opp. lia.
Qed.

Lemma ilog2_unique (x : Q) (e : Z) :
  (pow2 e <= x)%Q -> (x < pow2 (e + 1))%Q -> ilog2 x = e.
Proof.
  intros L U.
  assert (0 < x)%Q as Hx by (pose proof (pow2_pos e); lra).
  destruct (ilog2_spec x Hx) as [L' U'].
  assert (ilog2 x < e + 1).
  { apply (Qpower_lt_compat_l_inv 2); [|reflexivity]. fold (pow2 (ilog2 x)) (pow2 (e + 1)). lra. }
  assert (e < ilog2 x + 1).
  { apply (Qpower_lt_compat_l_inv 2); [|reflexivity]. fold (pow2 e) (pow2 (ilog2 x + 1)). lra. }
  lia.
Qed.

Lemma ilog2_le (x y : Q) : (0 < x)%Q -> (x <= y)%Q -> ilog2 x <= ilog2 y.
Proof.
  intros Hx Hxy.
  destruct (ilog2_spec x Hx) as [L _].
  destruct (ilog2_spec y ltac:(lra)) as [_ U].
  assert (ilog2 x < ilog2 y + 1); [|lia].
  apply (Qpower_lt_compat_l_inv 2); [|reflexivity].
  fold (pow2 (ilog2 x)) (pow2 (ilog2 y + 1)). lra.
Qed.

Lemma ilog2_eq (x y : Q) : (0 < x)%Q -> (x == y)%Q -> ilog2 x = ilog2 y.
Proof.
  intros Hx E. apply Z.le_antisymm; apply ilog2_le; lra.
Qed.

Lemma Qabs_pos_eq (x : Q) : (0 < x)%Q -> Qabs x = x.
Proof.
  destruct x as [n d]. unfold Qlt. cbn. intros H. f_equal. lia.
Qed.

Lemma round_zero (x : Q) : (x == 0)%Q -> round x = 0%Q.
Proof. intros E. unfold round. apply Qeq_bool_iff in E. now rewrite E. Qed.

Lemma round_nonzero (x : Q) :
  ~ (x == 0)%Q ->
  round x = (inject_Z (nearest_even (x * pow2 (- (ilog2 (Qabs x) - 52))))
             * pow2 (ilog2 (Qabs x) - 52))%Q.
Proof.
  intros N. unfold round. destruct (Qeq_bool x 0) eqn:E; [|reflexivity].
  apply Qeq_bool_iff in E. contradiction.
Qed.

Lemma round_pos (x : Q) :
  (0 < x)%Q ->
  round x = (inject_Z (nearest_even (x * pow2 (- (ilog2 x - 52)))) * pow2 (ilog2 x - 52))%Q.
Proof.
  intros Hx. rewrite round_nonzero by lra. now rewrite (Qabs_pos_eq x Hx).
Qed.

Lemma round_opp (x : Q) : (round (- x) == - round x)%Q.
Proof.
  destruct (Qeq_dec x 0) as [E|N].
  - rewrite (round_zero x E), (round_zero (- x)); [reflexivity|]. rewrite E. reflexivity.
  - rewrite (round_nonzero x N), (round_nonzero (- x)) by (intros C; apply N; lra).
    assert (Qabs (- x) = Qabs x) as ->.
    { destruct x as [n d]. unfold Qabs, Qopp. cbn [Qnum Qden]. now rewrite Z.abs_opp. }
    set (ex := ilog2 (Qabs x) - 52).
    rewrite (nearest_even_eq (- x * pow2 (- ex)) (- (x * pow2 (- ex)))) by ring.
    rewrite nearest_even_opp, inject_Z_opp. ring.
Qed.

(** the significand of a positive number lies between 2^52 and 2^53 *)
Lemma significand_bounds (x : Q) :
  (0 < x)%Q ->
  2 ^ 52 <= nearest_even (x * pow2 (- (ilog2 x - 52))) <= 2 ^ 53.
Proof.
  intros Hx. destruct (ilog2_spec x Hx) as [L U].
  set (e := ilog2 x) in *.
  pose proof (pow2_pos (- (e - 52))) as P.
  assert (pow2 e * pow2 (- (e - 52)) == inject_Z (2 ^ 52))%Q as E1.
  { rewrite <- pow2_add. replace (e + - (e - 52)) with 52 by lia. reflexivity. }
  assert (pow2 (e + 1) * pow2 (- (e - 52)) == inject_Z (2 ^ 53))%Q as E2.
  { rewrite <- pow2_add. replace (e + 1 + - (e - 52)) with 53 by lia. reflexivity. }
  split.
  - rewrite <- (nearest_even_inject (2 ^ 52)). apply nearest_even_le.
    rewrite <- E1. apply Qmult_le_r; assumption.
  - rewrite <- (nearest_even_inject (2 ^ 53)). apply nearest_even_le.
    rewrite <- E2. apply Qmult_le_r; [assumption|lra].
Qed.

Lemma round_binade (x : Q) :
  (0 < x)%Q -> (pow2 (ilog2 x) <= round x)%Q /\ (round x <= pow2 (ilog2 x + 1))%Q.
Proof.
  intros Hx. rewrite (round_pos x Hx).
  destruct (significand_bounds x Hx) as [L U].
  set (e := ilog2 x) in *. set (m := nearest_even _) in *.
  pose proof (pow2_pos (e - 52)) as P.
  assert (pow2 e == inject_Z (2 ^ 52) * pow2 (e - 52))%Q as E1.
  { change (inject_Z (2 ^ 52)) with (pow2 52). rewrite <- pow2_add.
    now replace (52 + (e - 52)) with e by lia. }
  assert (pow2 (e + 1) == inject_Z (2 ^ 53) * pow2 (e - 52))%Q as E2.
  { change (inject_Z (2 ^ 53)) with (pow2 53). rewrite <- pow2_add.
    now replace (53 + (e - 52)) with (e + 1) by lia. }
  rewrite E1, E2. split; apply Qmult_le_r; try assumption; rewrite <- Zle_Qle; assumption.
Qed.

Lemma round_pos_lt (x : Q) : (0 < x)%Q -> (0 < round x)%Q.
Proof.
  intros Hx. destruct (round_binade x Hx) as [L _].
  pose proof (pow2_pos (ilog2 x)). lra.
Qed.

Lemma round_le_pos (x y : Q) : (0 < x)%Q -> (x <= y)%Q -> (round x <= round y)%Q.
Proof.
  intros Hx Hxy. assert (0 < y)%Q as Hy by lra.
  pose proof (ilog2_le x y Hx Hxy) as He.
  destruct (Z.eq_dec (ilog2 x) (ilog2 y)) as [E|N].
  - rewrite (round_pos x Hx), (round_pos y Hy), E.
    apply Qmult_le_compat_r; [|apply Qlt_le_weak, pow2_pos].
    rewrite <- Zle_Qle. apply nearest_even_le.
    apply Qmult_le_compat_r; [exact Hxy|apply Qlt_le_weak, pow2_pos].
  - destruct (round_binade x Hx) as [_ U], (round_binade y Hy) as [L _].
    assert (pow2 (ilog2 x + 1) <= pow2 (ilog2 y))%Q by (apply pow2_le; lia).
    lra.
Qed.

Lemma round_le (x y : Q) : (x <= y)%Q -> (round x <= round y)%Q.
Proof.
  intros Hxy.
  destruct (Qlt_le_dec 0 x) as [Hx|Hx].
  { now apply round_le_pos. }
  destruct (Qlt_le_dec 0 y) as [Hy|Hy].
  { (* x <= 0 < y *)
    pose proof (round_pos_lt y Hy).
    destruct (Qeq_dec x 0) as [E|N]; [rewrite (round_zero x E); lra|].
    assert (0 < - x)%Q as Hnx by lra.
    pose proof (round_pos_lt _ Hnx) as P. rewrite round_opp in P. lra. }
  (* x <= y <= 0 *)
  destruct (Qeq_dec y 0) as [Ey|Ny].
  { rewrite (round_zero y Ey).
    destruct (Qeq_dec x 0) as [E|N]; [rewrite (round_zero x E); lra|].
    assert (0 < - x)%Q as Hnx by lra.
    pose proof (round_pos_lt _ Hnx) as P. rewrite round_opp in P. lra. }
  assert (0 < - y)%Q as Hny by lra.
  pose proof (round_le_pos (- y) (- x) Hny ltac:(lra)) as P.
  rewrite !round_opp in P. lra.
Qed.

#[global] Instance round_Proper : Proper (Qeq ==> Qeq) round.
Proof.
  intros x y E. apply Qle_antisym; apply round_le; rewrite E; apply Qle_refl.
Qed.

(** the relative error of rounding is at most 2^-53 *)
Lemma round_error (x : Q) : (Qabs (round x - x) <= Qabs x * pow2 (-53))%Q.
Proof.
  assert (forall y, (0 < y)%Q -> (Qabs (round y - y) <= y * pow2 (-53))%Q) as Hpos.
  { intros y Hy. rewrite (round_pos y Hy).
    destruct (ilog2_spec y Hy) as [L _].
    set (e := ilog2 y) in *.
    destruct (nearest_even_spec (y * pow2 (- (e - 52)))) as [B _].
    set (m := nearest_even _) in *.
    pose proof (pow2_pos (e - 52)) as P.
    assert (inject_Z m * pow2 (e - 52) - y
            == (inject_Z m - y * pow2 (- (e - 52))) * pow2 (e - 52))%Q as E.
    { setoid_replace ((inject_Z m - y * pow2 (- (e - 52))) * pow2 (e - 52))%Q
        with (inject_Z m * pow2 (e - 52) - y * (pow2 (e - 52) * pow2 (- (e - 52))))%Q using relation Qeq
        by ring.
      rewrite pow2_opp. ring. }
    rewrite E, Qabs_Qmult, (Qabs_pos (pow2 (e - 52))) by lra.
    assert (pow2 (e - 52) * (1 # 2) == pow2 e * pow2 (-53))%Q as E2.
    { change (1 # 2)%Q with (pow2 (-1)). rewrite <- !pow2_add.
      now replace (e - 52 + -1) with (e + -53) by lia. }
    pose proof (pow2_pos (-53)) as P53.
    apply Qle_trans with ((1 # 2) * pow2 (e - 52))%Q.
    - apply Qmult_le_compat_r; [exact B|lra].
    - setoid_replace ((1 # 2) * pow2 (e - 52))%Q with (pow2 e * pow2 (-53))%Q using relation Qeq
        by (rewrite <- E2; ring).
      apply Qmult_le_compat_r; [exact L|lra]. }
  destruct (Qlt_le_dec 0 x) as [Hx|Hx].
  { rewrite (Qabs_pos x) by lra. now apply Hpos. }
  destruct (Qeq_dec x 0) as [E|N].
  { rewrite (round_zero x E), E. discriminate. }
  assert (0 < - x)%Q as Hnx by lra.
  specialize (Hpos _ Hnx). rewrite round_opp in Hpos.
  rewrite (Qabs_neg x) by lra.
  setoid_replace (round x - x)%Q with (- (- round x - - x))%Q using relation Qeq by ring.
  now rewrite Qabs_opp.
Qed.

(** a number with at most 53 significant bits is a float *)
Lemma round_exact (x : Q) (k ex : Z) :
  (x == inject_Z k * pow2 ex)%Q -> Z.abs k < 2 ^ 53 -> (round x == x)%Q.
Proof.
  assert (forall y k ex, (0 < y)%Q -> (y == inject_Z k * pow2 ex)%Q -> k < 2 ^ 53 ->
                         (round y == y)%Q) as Hpos.
  { clear. intros y k ex Hy E Hk. rewrite (round_pos y Hy).
    destruct (ilog2_spec y Hy) as [L U].
    set (e := ilog2 y) in *.
    pose proof (pow2_pos ex) as Pex. pose proof (pow2_pos (e - 52)) as Pe.
    (* 2^e <= k 2^ex < 2^53 2^ex, so e - 52 <= ex *)
    assert (e < 53 + ex) as Hle.
    { apply (Qpower_lt_compat_l_inv 2); [|reflexivity].
      fold (pow2 e) (pow2 (53 + ex)).
      rewrite pow2_add. change (pow2 53) with (inject_Z (2 ^ 53)).
      apply Qle_lt_trans with y; [exact L|]. rewrite E.
      apply Qmult_lt_r; [exact Pex|]. rewrite <- Zlt_Qlt. exact Hk. }
    assert (y * pow2 (- (e - 52)) == inject_Z (k * 2 ^ (ex - (e - 52))))%Q as Ei.
    { rewrite inject_Z_mult, <- pow2_inject by lia. rewrite E, <- Qmult_assoc, <- pow2_add.
      now replace (ex + - (e - 52)) with (ex - (e - 52)) by lia. }
    rewrite (nearest_even_eq _ _ Ei), nearest_even_inject.
    rewrite inject_Z_mult, <- pow2_inject by lia.
    rewrite E, <- Qmult_assoc, <- pow2_add.
    now replace (ex - (e - 52) + (e - 52)) with ex by lia. }
  intros E Hk.
  destruct (Qlt_le_dec 0 x) as [Hx|Hx].
  { apply (Hpos x k ex Hx E). lia. }
  destruct (Qeq_dec x 0) as [E0|N].
  { rewrite (round_zero x E0). now symmetry. }
  assert (0 < - x)%Q as Hnx by lra.
  assert (round (- x) == - x)%Q as R.
  { apply (Hpos (- x)%Q (- k) ex Hnx); [|lia]. rewrite E, inject_Z_opp. ring. }
  rewrite round_opp in R. lra.
Qed.

Lemma round_inject (z : Z) : Z.abs z < 2 ^ 53 -> (round (inject_Z z) == inject_Z z)%Q.
Proof.
  intros H. apply (round_exact _ z 0); [|exact H]. change (pow2 0) with 1%Q. ring.
Qed.

Lemma round_nonneg (x : Q) : (0 <= x)%Q -> (0 <= round x)%Q.
Proof. intros H. rewrite <- (round_zero 0) by reflexivity. now apply round_le. Qed.

Lemma round_nonpos (x : Q) : (x <= 0)%Q -> (round x <= 0)%Q.
Proof. intros H. rewrite <- (round_zero 0) by reflexivity. now apply round_le. Qed.

Lemma round_neg_lt (x : Q) : (x < 0)%Q -> (round x < 0)%Q.
Proof.
  intros H. assert (0 < - x)%Q as Hn by lra.
  pose proof (round_pos_lt _ Hn) as P. rewrite round_opp in P. lra.
Qed.

(** two roundings in a row: a rounded value times an exact factor, rounded *)
Lemma mul_round_error (x c : Q) :
  (Qabs (mul (round x) c - x * c) <= Qabs (x * c) * pow2 (-51))%Q.
Proof.
  unfold mul.
  pose proof (round_error x) as H1.
  pose proof (round_error (round x * c)) as H2.
  assert (Qabs (round x * c - x * c) <= Qabs (x * c) * pow2 (-53))%Q as H1c.
  { setoid_replace (round x * c - x * c)%Q with ((round x - x) * c)%Q using relation Qeq by ring.
    rewrite !Qabs_Qmult.
    setoid_replace (Qabs x * Qabs c * pow2 (-53))%Q
      with (Qabs x * pow2 (-53) * Qabs c)%Q using relation Qeq by ring.
    apply Qmult_le_compat_r; [exact H1|apply Qabs_nonneg]. }
  assert (Qabs (round x * c) <= Qabs (x * c) + Qabs (round x * c - x * c))%Q as H3.
  { setoid_replace (round x * c)%Q with (x * c + (round x * c - x * c))%Q using relation Qeq at 1 by ring.
    apply Qabs_triangle. }
  assert (Qabs (round (round x * c) - x * c)
          <= Qabs (round (round x * c) - round x * c)
             + Qabs (round x * c - x * c))%Q as H4.
  { setoid_replace (round (round x * c) - x * c)%Q
      with ((round (round x * c) - round x * c) + (round x * c - x * c))%Q using relation Qeq at 1 by ring.
    apply Qabs_triangle. }
  pose proof (Qabs_nonneg (x * c)) as A0.
  change (pow2 (-53)) with (1 # 9007199254740992)%Q in *.
  change (pow2 (-51)) with (1 # 2251799813685248)%Q.
  lra.
Qed.

End FloatFacts.

(** ** The monad and the probes *)

Section MonadFacts.
Context {A B : Type}.

Lemma bind_run (m : M A) (f : A -> M B) (st : State) :
  (m ≫= f) st = match m st with
                | (Ok a, st') => f a st'
                | (Raise e, st') => (Raise e, st')
                end.
Proof. reflexivity. Qed.

Lemma bind_ok (m : M A) (f : A -> M B) (st st' : State) (a : A) :
  m st = (Ok a, st') -> (m ≫= f) st = f a st'.
Proof. intros H. now rewrite bind_run, H. Qed.

Lemma bind_raise (m : M A) (f : A -> M B) (st st' : State) (e : Exn) :
  m st = (Raise e, st') -> (m ≫= f) st = (Raise e, st').
Proof. intros H. now rewrite bind_run, H. Qed.

Lemma bind_inv (m : M A) (f : A -> M B) (st st' : State) (r : Result B) :
  (m ≫= f) st = (r, st') ->
  (exists a st1, m st = (Ok a, st1) /\ f a st1 = (r, st')) \/
  (exists e, m st = (Raise e, st') /\ r = Raise e).
Proof.
  rewrite bind_run. destruct (m st) as [[a|e] st1]; intros H.
  - left. eauto.
  - right. exists e. now inversion H.
Qed.

End MonadFacts.

Lemma ret_run {A : Type} (a : A) (st : State) : (mret a : M A) st = (Ok a, st).
Proof. reflexivity. Qed.

Section ProbeFacts.
Context (w : World).

Lemma check_function_run (func_name : string) (st : State) :
  check_function w func_name st =
  let st1 := request_sent (probe_request func_name) (clock_read st) in
  match http w (length (requests st)) (base_url +:+ "/" +:+ func_name) with
  | Responded code =>
      (Ok (responded_result func_name code
             (elapsed_ms (clock w (clock_reads st)) (clock w (S (clock_reads st))))),
       clock_read st1)
  | Raised e =>
      if is_request_exception e then (Ok (failed_result func_name e), st1)
      else (Raise e, st1)
  end.
Proof.
  unfold check_function, try_except.
  rewrite bind_run. cbn [utcnow].
  rewrite bind_run. unfold requests_get. cbn [clock_read requests].
  destruct (http w (length (requests st)) (base_url +:+ "/" +:+ func_name)) as [code|e].
  - reflexivity.
  - cbn. destruct (is_request_exception e); reflexivity.
Qed.

End ProbeFacts.

Section RunFacts.
Context (w : World).

Lemma check_function_ok (func_name : string) (st st' : State) (r : dict) :
  check_function w func_name st = (Ok r, st') ->
  ProbeResult func_name r /\
  requests st' = requests st ++ [probe_request func_name].
Proof.
  rewrite check_function_run. cbv zeta.
  destruct (http w _ _) as [code|e].
  - intros [= <- <-]. split; [eapply result_responded; reflexivity | reflexivity].
  - destruct (is_request_exception e); intros [= <- <-].
    split; [eapply result_failed; reflexivity | reflexivity].
Qed.

Lemma check_function_raise (func_name : string) (st st' : State) (e : Exn) :
  check_function w func_name st = (Raise e, st') ->
  is_request_exception e = false /\
  http w (length (requests st)) (base_url +:+ "/" +:+ func_name) = Raised e /\
  requests st' = requests st ++ [probe_request func_name].
Proof.
  rewrite check_function_run. cbv zeta.
  destruct (http w _ _) as [code|e0]; [discriminate|].
  destruct (is_request_exception e0) eqn:E; [discriminate|].
  intros [= <- <-]. auto.
Qed.

Lemma check_all_ok (names : list string) :
  forall (st st' : State) (rs : list dict),
  check_all w names st = (Ok rs, st') ->
  Forall2 ProbeResult names rs /\
  requests st' = requests st ++ map probe_request names.
Proof.
  induction names as [|n names IH]; intros st st' rs; cbn [check_all].
  - intros [= <- <-]. split; [constructor|]. cbn. now rewrite app_nil_r.
  - intros H. apply bind_inv in H as [(r & st1 & H1 & H)|(e & _ & [=])].
    apply bind_inv in H as [(rs' & st2 & H2 & H)|(e & _ & [=])].
    injection H as <- <-.
    apply check_function_ok in H1 as [P1 R1].
    apply IH in H2 as [P2 R2].
    split; [now constructor|].
    rewrite R2, R1. cbn [map]. now rewrite <- app_assoc.
Qed.

Lemma check_all_raise (names : list string) :
  forall (st st' : State) (e : Exn),
  check_all w names st = (Raise e, st') ->
  is_request_exception e = false /\
  (exists k u, http w k u = Raised e) /\
  exists probed rest, names = probed ++ rest /\ probed <> [] /\
    requests st' = requests st ++ map probe_request probed.
Proof.
  induction names as [|n names IH]; intros st st' e; cbn [check_all].
  - discriminate.
  - intros H. apply bind_inv in H as [(r & st1 & H1 & H)|(e' & H1 & [= <-])].
    + apply bind_inv in H as [(rs' & st2 & H2 & [=])|(e' & H2 & [= <-])].
      apply check_function_ok in H1 as [_ R1].
      apply IH in H2 as (E & K & probed & rest & -> & _ & R2).
      split; [exact E|]. split; [exact K|].
      exists (n :: probed), rest. split; [reflexivity|]. split; [discriminate|].
      rewrite R2, R1. cbn [map]. now rewrite <- app_assoc.
    + apply check_function_raise in H1 as (E & K & R1).
      split; [exact E|]. split; [eauto|].
      exists [n], names. split; [reflexivity|]. split; [discriminate|]. exact R1.
Qed.

Lemma ProbeResult_status (func_name : string) (r : dict) :
  ProbeResult func_name r -> exists s, dict_lookup "status" r = Some (JStr s).
Proof. intros [code el ->|e ->]; eexists; reflexivity. Qed.

Lemma ProbeResult_elapsed (func_name : string) (r : dict) :
  ProbeResult func_name r -> exists x, dict_lookup "elapsed" r = Some (JNum x).
Proof. intros [code el ->|e ->]; eexists; reflexivity. Qed.

Lemma ProbeResult_name (func_name : string) (r : dict) :
  ProbeResult func_name r -> name_of r = Some func_name.
Proof. intros [code el ->|e ->]; reflexivity. Qed.

Lemma healthy_of_run (rs : list dict) (st : State) :
  Forall (fun r => exists n, ProbeResult n r) rs ->
  healthy_of rs st = (Ok (List.filter is_running rs), st).
Proof.
  induction 1 as [|r rs [n P] _ IH]; [reflexivity|].
  cbn [healthy_of List.filter].
  destruct (ProbeResult_status n r P) as [s Hs].
  unfold getitem, is_running. rewrite Hs.
  rewrite (bind_ok _ _ st st (JStr s)) by reflexivity.
  rewrite (bind_ok _ _ st st _ IH).
  reflexivity.
Qed.

Lemma sum_elapsed_run (rs : list dict) :
  Forall (fun r => exists n, ProbeResult n r) rs ->
  forall (total : pynum) (st : State),
  sum_elapsed rs total st = (Ok (fold_left py_add (map elapsed_num rs) total), st).
Proof.
  induction 1 as [|r rs [n P] _ IH]; intros total st; [reflexivity|].
  destruct (ProbeResult_elapsed n r P) as [x Hx].
  assert (elapsed_num r = x) as Hr by (unfold elapsed_num; now rewrite Hx).
  cbn [sum_elapsed map fold_left]. unfold getitem. rewrite Hx.
  rewrite (bind_ok _ _ st st (JNum x)) by reflexivity.
  rewrite (bind_ok _ _ st st x) by reflexivity.
  rewrite Hr. apply IH.
Qed.

End RunFacts.

(** ** Discovery *)

Section DiscoveryFacts.
Context (w : World).

Lemma is_function_dir_excluded (item : string) (isdir : bool) :
  is_function_dir item isdir = isdir && negb (excluded item).
Proof.
  unfold is_function_dir, excluded.
  destruct isdir, (Str.startswith item "__"), (Str.startswith item "."),
    (String.eqb item "tests"), (String.eqb (Str.lower item) "getsystemstatus");
    reflexivity.
Qed.

Lemma discovery_loop (entries : list (string * bool)) :
  forall functions : list string,
  fold_left
    (fun functions (entry : string * bool) =>
       let (item, isdir) := entry in
       if is_function_dir item isdir
       then functions ++ [Str.lower item]
       else functions)
    entries functions
  = functions ++ discovered entries.
Proof.
  unfold discovered.
  induction entries as [|[item isdir] entries IH]; intros functions; cbn [fold_left].
  - cbn. now rewrite app_nil_r.
  - rewrite IH. cbn [List.filter fst snd].
    rewrite <- is_function_dir_excluded.
    destruct (is_function_dir item isdir); [|reflexivity].
    cbn [map fst]. now rewrite <- app_assoc.
Qed.

Lemma get_function_list_run (st : State) :
  get_function_list w st =
  match listdir w with
  | inl e => (Raise e, st)
  | inr entries => (Ok (discovered entries), st)
  end.
Proof.
  unfold get_function_list. rewrite bind_run. unfold os_listdir.
  destruct (listdir w) as [e|entries]; [reflexivity|].
  now rewrite discovery_loop.
Qed.

Lemma discovered_elem (entries : list (string * bool)) (n : string) :
  n ∈ discovered entries <->
  exists item, (item, true) ∈ entries /\ excluded item = false /\ n = Str.lower item.
Proof.
  unfold discovered. rewrite list_elem_of_fmap. split.
  - intros ([item isdir] & -> & H).
    apply list_elem_of_In, filter_In in H as [H C]. cbn [fst snd] in *.
    apply andb_prop in C as [-> C]. apply negb_true_iff in C.
    exists item. split; [now apply list_elem_of_In|]. auto.
  - intros (item & H & C & ->). exists (item, true). split; [reflexivity|].
    apply list_elem_of_In, filter_In. split; [now apply list_elem_of_In|].
    cbn [fst snd]. now rewrite C.
Qed.

Lemma discovered_lower (entries : list (string * bool)) (n : string) :
  n ∈ discovered entries ->
  Str.lower n = n /\ n <> "getsystemstatus" /\
  Str.startswith n "__" = false /\ Str.startswith n "." = false.
Proof.
  intros (item & _ & C & ->)%discovered_elem.
  unfold excluded in C.
  apply orb_false_elim in C as [C Ht].
  apply orb_false_elim in C as [C Hd].
  apply orb_false_elim in C as [Hs Hu].
  split; [apply StrFacts.lower_idemp|].
  split; [now apply String.eqb_neq|].
  now rewrite StrFacts.startswith_lower_dunder, StrFacts.startswith_lower_dot.
Qed.

End DiscoveryFacts.

(** ** Aggregation *)

Section AggregateFacts.
Context (w : World).

Lemma probe_set_filter (names : list string) :
  Forall (fun n => Str.lower n = n) names ->
  filter (fun f => Str.lower f ≠ "callback") names = probe_set names.
Proof.
  unfold probe_set. induction 1 as [|n names Hn _ IH]; [reflexivity|].
  rewrite !filter_cons, Hn, IH. reflexivity.
Qed.

Lemma probe_set_discovered (entries : list (string * bool)) :
  filter (fun f => Str.lower f ≠ "callback") (discovered entries)
  = probe_set (discovered entries).
Proof.
  apply probe_set_filter, Forall_forall. intros n Hn.
  now apply (discovered_lower entries n).
Qed.

Lemma py_truediv_run (a : pynum) (n : Z) (st : State) :
  0 < n ->
  py_truediv a (PyInt n) st = (Ok (PyFloat (py_quotient a (PyInt n))), st).
Proof.
  intros Hn. unfold py_truediv. cbn [num_value].
  destruct (Qeq_bool (inject_Z n) 0) eqn:E; [|reflexivity].
  apply Qeq_bool_iff in E. unfold Qeq, inject_Z in E. cbn in E. lia.
Qed.

Lemma Forall2_ProbeResult_Forall (names : list string) (rs : list dict) :
  Forall2 ProbeResult names rs -> Forall (fun r => exists n, ProbeResult n r) rs.
Proof. induction 1; constructor; eauto. Qed.

Lemma check_all_log (names : list string) :
  forall (st st' : State) (r : Result (list dict)),
  check_all w names st = (r, st') -> error_log st' = error_log st.
Proof.
  induction names as [|n names IH]; intros st st' r; cbn [check_all].
  - now intros [= <- <-].
  - intros H. apply bind_inv in H as [(x & st1 & H1 & H)|(e & H1 & _)].
    + assert (error_log st1 = error_log st) as E1.
      { rewrite check_function_run in H1. cbv zeta in H1.
        destruct (http w _ _) as [code|e]; [|destruct (is_request_exception e)];
          injection H1 as _ <-; reflexivity. }
      apply bind_inv in H as [(rs & st2 & H2 & H)|(e & H2 & _)].
      * injection H as _ <-. now rewrite (IH _ _ _ H2).
      * now rewrite (IH _ _ _ H2).
    + rewrite check_function_run in H1. cbv zeta in H1.
      destruct (http w _ _) as [code|e']; [|destruct (is_request_exception e')];
        injection H1 as _ <-; reflexivity.
Qed.

Lemma aggregate_ok (st st' : State) (a : Aggregates) :
  aggregate w st = (Ok a, st') ->
  exists entries, aggregated w st st' a entries.
Proof.
  unfold aggregate. rewrite bind_run, get_function_list_run.
  destruct (listdir w) as [e|entries] eqn:L; [discriminate|].
  rewrite probe_set_discovered.
  set (to_check := probe_set (discovered entries)).
  intros H.
  apply bind_inv in H as [(rs & st1 & H1 & H)|(e & _ & [=])].
  pose proof (check_all_log _ _ _ _ H1) as Hlog.
  apply check_all_ok in H1 as [P R].
  pose proof (Forall2_ProbeResult_Forall _ _ P) as F.
  pose proof (Forall2_length _ _ _ P) as Hlen.
  rewrite (bind_ok _ _ st1 st1 _ (healthy_of_run rs st1 F)) in H.
  pose proof (sum_elapsed_run rs F (PyInt 0) st1) as Ht. fold (elapsed_sum rs) in Ht.
  rewrite (bind_ok _ _ st1 st1 _ Ht) in H.
  exists entries.
  destruct (Z.ltb_spec 0 (Z.of_nat (length to_check))) as [Hn|Hn].
  - rewrite (bind_ok _ _ st1 st1 _ (py_truediv_run _ _ st1 Hn)) in H.
    rewrite (bind_ok _ _ st1 st1 _
               (bind_ok _ _ st1 st1 _ (py_truediv_run _ _ st1 Hn))) in H.
    injection H as <- <-.
    constructor; cbn [function_statuses healthy_functions total_response_time
      num_checked_functions avg_response_time health_percentage]; auto.
    + destruct (Z.ltb_spec 0 (Z.of_nat (length to_check))); [reflexivity|lia].
    + destruct (Z.ltb_spec 0 (Z.of_nat (length to_check))); [reflexivity|lia].
  - injection H as <- <-.
    constructor; cbn [function_statuses healthy_functions total_response_time
      num_checked_functions avg_response_time health_percentage]; auto.
    + destruct (Z.ltb_spec 0 (Z.of_nat (length to_check))); [lia|reflexivity].
    + destruct (Z.ltb_spec 0 (Z.of_nat (length to_check))); [lia|reflexivity].
Qed.

Lemma aggregate_raise (st st' : State) (e : Exn) :
  aggregate w st = (Raise e, st') ->
  (listdir w = inl e /\ st' = st) \/
  (exists entries probed rest,
     listdir w = inr entries /\
     is_request_exception e = false /\
     (exists k u, http w k u = Raised e) /\
     probe_set (discovered entries) = probed ++ rest /\ probed <> [] /\
     requests st' = requests st ++ map probe_request probed /\
     error_log st' = error_log st).
Proof.
  unfold aggregate. rewrite bind_run, get_function_list_run.
  destruct (listdir w) as [e0|entries] eqn:L.
  { intros [= <- <-]. now left. }
  rewrite probe_set_discovered.
  set (to_check := probe_set (discovered entries)).
  intros H. right.
  apply bind_inv in H as [(rs & st1 & H1 & H)|(e' & H1 & [= <-])].
  - exfalso.
    apply check_all_ok in H1 as [P R].
    pose proof (Forall2_ProbeResult_Forall _ _ P) as F.
    rewrite (bind_ok _ _ st1 st1 _ (healthy_of_run rs st1 F)) in H.
    pose proof (sum_elapsed_run rs F (PyInt 0) st1) as Ht.
    rewrite (bind_ok _ _ st1 st1 _ Ht) in H.
    destruct (Z.ltb_spec 0 (Z.of_nat (length to_check))) as [Hn|Hn].
    + rewrite (bind_ok _ _ st1 st1 _ (py_truediv_run _ _ st1 Hn)) in H.
      rewrite (bind_ok _ _ st1 st1 _
                 (bind_ok _ _ st1 st1 _ (py_truediv_run _ _ st1 Hn))) in H.
      discriminate.
    + discriminate.
  - pose proof (check_all_log _ _ _ _ H1) as Hlog.
    apply check_all_raise in H1 as (E & K & probed & rest & Hp & Hne & R).
    exists entries, probed, rest. auto 10.
Qed.

End AggregateFacts.

(** ** The handler *)

Section MainFacts.
Context (w : World).

Lemma add_cors_headers_body (req : HttpRequest.t) (r : HttpResponse.t) :
  HttpResponse.body (add_cors_headers req r) = HttpResponse.body r /\
  HttpResponse.status_code (add_cors_headers req r) = HttpResponse.status_code r /\
  HttpResponse.mimetype (add_cors_headers req r) = HttpResponse.mimetype r.
Proof. unfold add_cors_headers. now destruct (bool_decide _). Qed.

Lemma add_cors_headers_sent (req : HttpRequest.t) (r : HttpResponse.t) :
  HttpResponse.headers r = ∅ ->
  let origin := Headers.get (HttpRequest.headers req) "Origin" "" in
  let h := HttpResponse.headers (add_cors_headers req r) in
  Headers.sent h "Access-Control-Allow-Origin"
    = (if bool_decide (origin ∈ allowed_origins) then Some origin else None) /\
  Headers.sent h "Access-Control-Allow-Methods" = Some "GET, OPTIONS" /\
  Headers.sent h "Access-Control-Allow-Headers" = Some "Content-Type".
Proof.
  intros He. cbv zeta. unfold add_cors_headers, Headers.sent.
  set (origin := Headers.get (HttpRequest.headers req) "Origin" "").
  change (Str.lower "Access-Control-Allow-Origin") with "access-control-allow-origin".
  change (Str.lower "Access-Control-Allow-Methods") with "access-control-allow-methods".
  change (Str.lower "Access-Control-Allow-Headers") with "access-control-allow-headers".
  destruct (bool_decide (origin ∈ allowed_origins));
    cbn [HttpResponse.set_header HttpResponse.headers]; unfold Headers.set;
    change (Str.lower "Access-Control-Allow-Origin") with "access-control-allow-origin";
    change (Str.lower "Access-Control-Allow-Methods") with "access-control-allow-methods";
    change (Str.lower "Access-Control-Allow-Headers") with "access-control-allow-headers";
    rewrite He; repeat split; by simplify_map_eq.
Qed.

Lemma main_try_ok (req : HttpRequest.t) (st st1 : State) (a : Aggregates) :
  aggregate w st = (Ok a, st1) ->
  main_try w req st =
  (Ok (add_cors_headers req
         (json_response (status_of w a (clock w (clock_reads st1))))),
   clock_read st1).
Proof. intros H. unfold main_try. now rewrite (bind_ok _ _ _ _ _ H). Qed.

Lemma main_try_raise (req : HttpRequest.t) (st st1 : State) (e : Exn) :
  aggregate w st = (Raise e, st1) -> main_try w req st = (Raise e, st1).
Proof. intros H. unfold main_try. now rewrite (bind_raise _ _ _ _ _ H). Qed.

Lemma main_try_inv (req : HttpRequest.t) (st st' : State) (r : Result HttpResponse.t) :
  main_try w req st = (r, st') ->
  (exists a st1, aggregate w st = (Ok a, st1) /\ st' = clock_read st1 /\
     r = Ok (add_cors_headers req
               (json_response (status_of w a (clock w (clock_reads st1)))))) \/
  (exists e, aggregate w st = (Raise e, st') /\ r = Raise e).
Proof.
  destruct (aggregate w st) as [[a|e] st1] eqn:H.
  - rewrite (main_try_ok req _ _ _ H). intros [= <- <-]. left. eauto.
  - rewrite (main_try_raise req _ _ _ H). intros [= <- <-]. right. eauto.
Qed.

Lemma main_options (req : HttpRequest.t) (st : State) :
  HttpRequest.method req = "OPTIONS" ->
  main w req st =
  (Ok (add_cors_headers req (HttpResponse.mk NoBody "text/plain" 200 ∅)), st).
Proof. intros H. unfold main. now rewrite H. Qed.

Lemma main_get_ok (req : HttpRequest.t) (st st' : State) (resp : HttpResponse.t) :
  HttpRequest.method req <> "OPTIONS" ->
  main_try w req st = (Ok resp, st') ->
  main w req st = (Ok resp, st').
Proof.
  intros Hm H. unfold main, try_except.
  apply String.eqb_neq in Hm. now rewrite Hm, H.
Qed.

Lemma main_get_raise (req : HttpRequest.t) (st st1 : State) (e : Exn) :
  HttpRequest.method req <> "OPTIONS" ->
  main_try w req st = (Raise e, st1) ->
  main w req st =
  (Ok (add_cors_headers req
         (json_response
            (error_status w e
               (clock w (clock_reads st1))))),
   clock_read (error_logged ("Error getting system status: " +:+ exn_str e) st1)).
Proof.
  intros Hm H. unfold main, try_except.
  apply String.eqb_neq in Hm. now rewrite Hm, H.
Qed.

Lemma main_total (req : HttpRequest.t) (st : State) :
  exists resp st', main w req st = (Ok resp, st').
Proof.
  destruct (String.eqb_spec (HttpRequest.method req) "OPTIONS") as [Hm|Hm].
  - rewrite (main_options req st Hm). eauto.
  - destruct (main_try w req st) as [[resp|e] st1] eqn:H.
    + rewrite (main_get_ok req _ _ _ Hm H). eauto.
    + rewrite (main_get_raise req _ _ _ Hm H). eauto.
Qed.

End MainFacts.

(** * The claims of the specification *)

(** ** Service discovery *)

(** C6. Discovery yields, in listing order, the lower-cased name of every
    directory entry that is not the aggregator's own name in any case, does
    not start with a double underscore or a dot, and is not the literal
    name "tests"; nothing else.  No name it yields is "getsystemstatus" or
    starts with "__" or ".", and every name is lower-case. *)
Theorem discovery_names (w : World) (st : State) (entries : list (string * bool)) :
  listdir w = inr entries ->
  exists names,
    get_function_list w st = (Ok names, st) /\
    names = discovered entries /\
    (forall n, n ∈ names <->
       exists item, (item, true) ∈ entries /\
         Str.lower item <> "getsystemstatus" /\
         Str.startswith item "__" = false /\
         Str.startswith item "." = false /\
         item <> "tests" /\
         n = Str.lower item) /\
    (forall n, n ∈ names ->
       Str.lower n = n /\ n <> "getsystemstatus" /\
       Str.startswith n "__" = false /\ Str.startswith n "." = false).
Proof.
  intros L. exists (discovered entries).
  split; [rewrite get_function_list_run; now rewrite L|].
  split; [reflexivity|].
  split; [|apply discovered_lower].
  intros n. rewrite discovered_elem. unfold excluded.
  split; intros (item & H & C).
  - exists item. split; [exact H|]. destruct C as [C ->].
    apply orb_false_elim in C as [C Ht].
    apply orb_false_elim in C as [C Hd].
    apply orb_false_elim in C as [Hs Hu].
    apply String.eqb_neq in Hs, Ht. auto.
  - exists item. split; [exact H|].
    destruct C as (Hs & Hu & Hd & Ht & ->).
    apply String.eqb_neq in Hs, Ht. now rewrite Hs, Ht, Hu, Hd.
Qed.

Lemma discovery_names_witness :
  listdir demo_world =
    inr [("getUser", true); ("Callback", true); ("tests", true);
         ("__pycache__", true); ("host.json", false);
         ("GetSystemStatus", true); ("createUserTable", true);
         (".git", true); ("Tests", true)] /\
  get_function_list demo_world initial =
    (Ok ["getuser"; "callback"; "createusertable"; "tests"], initial).
Proof.
  split; [reflexivity|].
  destruct (discovery_names demo_world initial _ eq_refl) as (names & H & -> & _).
  exact H.
Defined.

(** ** Probes *)

Lemma Qnum_nonneg (x : Q) : (0 <= x)%Q <-> 0 <= Qnum x.
Proof. unfold Qle. cbn. lia. Qed.

Lemma Qnum_neg (x : Q) : (Qnum x <? 0) = true <-> (x < 0)%Q.
Proof. rewrite Z.ltb_lt. unfold Qlt. cbn [Qnum Qden]. lia. Qed.

Lemma microseconds_quotient (d : Z) (k : positive) :
  (inject_Z d / inject_Z (Z.pos k) == d # k)%Q.
Proof. symmetry. apply Qmake_Qdiv. Qed.

Lemma elapsed_ms_sign (t0 t1 : Z) : (Qnum (elapsed_ms t0 t1) <? 0) = (t1 <? t0).
Proof.
  unfold elapsed_ms, Float.mul, Float.div.
  pose proof (microseconds_quotient (t1 - t0) 1000000) as E.
  set (x := (inject_Z (t1 - t0) / inject_Z 1000000)%Q) in *.
  destruct (Z.ltb_spec t1 t0) as [H|H].
  - apply Qnum_neg. apply FloatFacts.round_neg_lt.
    assert (x < 0)%Q as Hx by (rewrite E; unfold Qlt; cbn [Qnum Qden]; lia).
    pose proof (FloatFacts.round_neg_lt x Hx) as Hr.
    change (inject_Z 1000) with 1000%Q. lra.
  - destruct (Qnum _ <? 0) eqn:C; [|reflexivity]. exfalso.
    apply Qnum_neg in C.
    assert (0 <= x)%Q as Hx by (rewrite E; unfold Qle; cbn [Qnum Qden]; lia).
    pose proof (FloatFacts.round_nonneg x Hx) as Hr.
    assert (0 <= Float.round x * inject_Z 1000)%Q as Hp
      by (change (inject_Z 1000) with 1000%Q; lra).
    pose proof (FloatFacts.round_nonneg _ Hp). lra.
Qed.

(** binary64 at work: [25.0 / 3] is 8.333333333333334, [23 / 80 * 100] is
    28.749999999999996, and 501500 microseconds come out as
    501.49999999999994 ms, below the 501.5 ms they are *)
Example binary64_samples :
  (Float.div 25 3 == 4691249611844267 # 562949953421312)%Q /\
  Fmt.format_f 1 (Float.mul (Float.div 23 80) 100) = "28.7" /\
  (elapsed_ms 0 501500 < 5015 # 10)%Q /\
  Fmt.format_f 0 (elapsed_ms 0 501500) = "501" /\
  (elapsed_ms 0 12500 == 125 # 10)%Q /\
  Fmt.format_f 0 (elapsed_ms 0 12500) = "12".
Proof. repeat split; vm_compute; reflexivity. Qed.

(** the [elapsed] of a probe is the clock difference in milliseconds up to
    the two roundings of its computation *)
Lemma elapsed_ms_error (t0 t1 : Z) :
  (Qabs (elapsed_ms t0 t1 - ((t1 - t0) # 1000))
   <= Qabs ((t1 - t0) # 1000) * Float.pow2 (-51))%Q.
Proof.
  unfold elapsed_ms, Float.div.
  pose proof (FloatFacts.mul_round_error
                (inject_Z (t1 - t0) / inject_Z 1000000) (inject_Z 1000)) as H.
  assert (inject_Z (t1 - t0) / inject_Z 1000000 * inject_Z 1000
          == (t1 - t0) # 1000)%Q as E.
  { rewrite microseconds_quotient. unfold Qeq, Qmult, inject_Z. cbn [Qnum Qden]. lia. }
  rewrite E in H. exact H.
Qed.

(** an integer nearest to a float that is within 2^-51 of a count of
    microseconds below 2^51 is nearest to the count of milliseconds too *)
Lemma nearest_millisecond (d N : Z) (f : Q) :
  Z.abs d < 2 ^ 51 ->
  (Qabs (f - (d # 1000)) <= Qabs (d # 1000) * Float.pow2 (-51))%Q ->
  (Qabs (Qabs f - inject_Z N) <= 1 # 2)%Q ->
  (Qabs (Qabs (d # 1000) - inject_Z N) <= 1 # 2)%Q.
Proof.
  intros Hd He Hn.
  change (Qabs (d # 1000)) with (Z.abs d # 1000)%Q in *.
  change (Float.pow2 (-51)) with (1 # 2251799813685248)%Q in He.
  assert ((Z.abs d # 1000) * (1 # 2251799813685248) < 1 # 1000)%Q as Hsmall.
  { unfold Qlt, Qmult. cbn [Qnum Qden]. lia. }
  pose proof (Qabs_triangle_reverse f (d # 1000)) as T1.
  pose proof (Qabs_triangle_reverse (d # 1000) f) as T2.
  rewrite (Qabs_Qminus (d # 1000) f) in T2.
  change (Qabs (d # 1000)) with (Z.abs d # 1000)%Q in *.
  apply Qabs_Qle_condition in Hn. destruct Hn as [Hn1 Hn2].
  assert (- (501 # 1000) < (Z.abs d # 1000) - inject_Z N)%Q as L by lra.
  assert ((Z.abs d # 1000) - inject_Z N < 501 # 1000)%Q as U by lra.
  apply Qabs_Qle_condition.
  revert L U. unfold Qlt, Qle, Qminus, Qplus, Qopp, inject_Z. cbn [Qnum Qden].
  lia.
Qed.

(** C3. When a response comes back, the probe returns a ProbeResult whose
    status is "running" for a status code below 500 and "error" otherwise.
    Its [elapsed] is the float the probe computes from the two clock
    readings; it is the clock difference in milliseconds up to a relative
    error of 2^-51.  Its [response_time] is that float formatted with no
    decimals, followed by "ms": "{N}ms" for an integer [N] nearest to the
    magnitude of [elapsed], preceded by a minus sign only when the clock
    went backwards.  For a clock difference below 2^51 microseconds (71
    years) [N] is an integer nearest to the clock difference in
    milliseconds itself. *)
Theorem probe_responded (w : World) (func_name : string) (st : State) (code : Z) :
  http w (length (requests st)) (base_url +:+ "/" +:+ func_name) = Responded code ->
  let start_time := clock w (clock_reads st) in
  let end_time := clock w (S (clock_reads st)) in
  exists (elapsed : Q) (N : Z),
    check_function w func_name st =
      (Ok [("name", JStr func_name);
           ("status", JStr (if code <? 500 then "running" else "error"));
           ("response_time",
            JStr ((if end_time <? start_time then "-" else "")
                  +:+ Fmt.str_nonneg N +:+ "ms"));
           ("status_code", JNum (PyInt code));
           ("elapsed", JNum (PyFloat elapsed))],
       clock_read (request_sent (probe_request func_name) (clock_read st))) /\
    elapsed = Float.mul (Float.div (inject_Z (end_time - start_time)) (inject_Z 1000000))
                        (inject_Z 1000) /\
    Fmt.format_f 0 elapsed
      = (if end_time <? start_time then "-" else "") +:+ Fmt.str_nonneg N /\
    (Qabs (elapsed - ((end_time - start_time) # 1000))
     <= Qabs ((end_time - start_time) # 1000) * Float.pow2 (-51))%Q /\
    0 <= N /\
    (Qabs (Qabs elapsed - inject_Z N) <= 1 # 2)%Q /\
    (Z.abs (end_time - start_time) < 2 ^ 51 ->
     (Qabs (Qabs ((end_time - start_time) # 1000) - inject_Z N) <= 1 # 2)%Q).
Proof.
  intros H. cbv zeta.
  set (start_time := clock w (clock_reads st)).
  set (end_time := clock w (S (clock_reads st))).
  exists (elapsed_ms start_time end_time).
  exists (Fmt.scaled 0 (elapsed_ms start_time end_time)).
  assert (Fmt.format_f 0 (elapsed_ms start_time end_time)
          = (if end_time <? start_time then "-" else "")
            +:+ Fmt.str_nonneg (Fmt.scaled 0 (elapsed_ms start_time end_time))) as Hf
    by (now rewrite FmtFacts.format_f_0, elapsed_ms_sign).
  pose proof (elapsed_ms_error start_time end_time) as He.
  destruct (FmtFacts.scaled_0_nearest (elapsed_ms start_time end_time)) as [H0 Hn].
  split.
  { rewrite check_function_run, H. cbv zeta. unfold responded_result.
    fold start_time end_time. rewrite Hf.
    destruct (end_time <? start_time); reflexivity. }
  split; [reflexivity|]. split; [exact Hf|]. split; [exact He|].
  split; [exact H0|]. split; [exact Hn|].
  intros Hd. now apply (nearest_millisecond _ _ (elapsed_ms start_time end_time)).
Qed.

Lemma probe_responded_witness :
  http demo_world 0 (base_url +:+ "/" +:+ "getuser") = Responded 200 /\
  exists (elapsed : Q) (N : Z),
    check_function demo_world "getuser" initial =
      (Ok [("name", JStr "getuser");
           ("status", JStr "running");
           ("response_time", JStr (Fmt.str_nonneg N +:+ "ms"));
           ("status_code", JNum (PyInt 200));
           ("elapsed", JNum (PyFloat elapsed))],
       clock_read (request_sent (probe_request "getuser") (clock_read initial))) /\
    elapsed = Float.mul (Float.div (inject_Z 12500) (inject_Z 1000000)) (inject_Z 1000) /\
    Fmt.format_f 0 elapsed = Fmt.str_nonneg N /\
    (Qabs (elapsed - (12500 # 1000)) <= Qabs (12500 # 1000) * Float.pow2 (-51))%Q /\
    0 <= N /\
    (Qabs (Qabs elapsed - inject_Z N) <= 1 # 2)%Q /\
    (Z.abs 12500 < 2 ^ 51 ->
     (Qabs (Qabs (12500 # 1000) - inject_Z N) <= 1 # 2)%Q).
Proof.
  split; [reflexivity|].
  exact (probe_responded demo_world "getuser" initial 200 eq_refl).
Defined.




(** C10. A ProbeResult carries the [error] field exactly when the request
    itself raised; a response with a status code of 500 or above yields
    status "error" and that status code, and no [error] field. *)
Theorem error_field_iff_raised (w : World) (func_name : string)
    (st st' : State) (r : dict) :
  check_function w func_name st = (Ok r, st') ->
  let outcome := http w (length (requests st)) (base_url +:+ "/" +:+ func_name) in
  (is_Some (dict_lookup "error" r) <-> exists e, outcome = Raised e) /\
  (forall code, outcome = Responded code -> 500 <= code ->
     dict_lookup "status" r = Some (JStr "error") /\
     dict_lookup "status_code" r = Some (JNum (PyInt code)) /\
     dict_lookup "error" r = None).
Proof.
  rewrite check_function_run. cbv zeta.
  destruct (http w _ _) as [code|e] eqn:O.
  - intros [= <- <-]. split.
    + split; [intros [v [=]] | intros [e [=]]].
    + intros c [= <-] Hc. cbn.
      destruct (Z.ltb_spec code 500); [lia|]. auto.
  - destruct (is_request_exception e); intros [= <- <-]. split.
    + split; [eauto | intros _; eexists; reflexivity].
    + intros c [=].
Qed.

Lemma error_field_iff_raised_witness :
  let st := request_sent (probe_request "getuser")
              (request_sent (probe_request "createusertable") initial) in
  let r := responded_result "tests" 503 (elapsed_ms 0 12500) in
  check_function demo_world "tests" st
  = (Ok r, clock_read (request_sent (probe_request "tests") (clock_read st))) /\
  dict_lookup "status" r = Some (JStr "error") /\
  dict_lookup "status_code" r = Some (JNum (PyInt 503)) /\
  dict_lookup "error" r = None.
Proof.
  cbv zeta. split; [reflexivity|].
  refine (proj2 (error_field_iff_raised demo_world "tests"
                   (request_sent (probe_request "getuser")
                      (request_sent (probe_request "createusertable") initial))
                   _ (responded_result "tests" 503 (elapsed_ms 0 12500))
                   eq_refl) 503 eq_refl _).
  lia.
Defined.

(** ** Aggregation and the report *)

Section ReportFacts.
Context (w : World).

Lemma main_try_success (req : HttpRequest.t) (st st' : State) (resp : HttpResponse.t) :
  main_try w req st = (Ok resp, st') ->
  exists a st1 entries,
    aggregate w st = (Ok a, st1) /\
    aggregated w st st1 a entries /\
    st' = clock_read st1 /\
    resp = add_cors_headers req
             (json_response (status_of w a (clock w (clock_reads st1)))) /\
    HttpResponse.body resp
      = JsonText (JObj (status_of w a (clock w (clock_reads st1)))).
Proof.
  intros H. apply main_try_inv in H as [(a & st1 & Ha & -> & [= ->])|(e & _ & [=])].
  destruct (aggregate_ok w _ _ _ Ha) as [entries Hagg].
  exists a, st1, entries.
  split; [exact Ha|]. split; [exact Hagg|]. split; [reflexivity|].
  split; [reflexivity|].
  exact (proj1 (add_cors_headers_body req _)).
Qed.

Lemma of_nat_eqb (a b : nat) : (Z.of_nat a =? Z.of_nat b) = (a =? b)%nat.
Proof.
  destruct (Z.eqb_spec (Z.of_nat a) (Z.of_nat b)), (Nat.eqb_spec a b);
    lia || reflexivity.
Qed.

End ReportFacts.

(** C1. On the success path the report's state is "running" exactly when
    the number of probe results with status "running" equals the number of
    probed services, and "degraded" otherwise; availability is "normal"
    under the same condition and "limited" otherwise.  With no service to
    probe the state is "running". *)
Theorem overall_state (w : World) (req : HttpRequest.t) (st st' : State)
    (resp : HttpResponse.t) :
  HttpRequest.method req <> "OPTIONS" ->
  main_try w req st = (Ok resp, st') ->
  main w req st = (Ok resp, st') /\
  exists (entries : list (string * bool)) (report : dict) (rs : list dict),
    listdir w = inr entries /\
    requests st' = requests st ++ map probe_request (probe_set (discovered entries)) /\
    HttpResponse.body resp = JsonText (JObj report) /\
    dict_lookup "functions" report = Some (JArr (map JObj rs)) /\
    length rs = length (probe_set (discovered entries)) /\
    dict_lookup "state" report =
      Some (JStr (if (healthy_count rs =? length rs)%nat
                  then "running" else "degraded")) /\
    dict_lookup "availability" report =
      Some (JStr (if (healthy_count rs =? length rs)%nat
                  then "normal" else "limited")) /\
    (probe_set (discovered entries) = [] ->
     dict_lookup "state" report = Some (JStr "running")).
Proof.
  intros Hm H. split; [now apply main_get_ok|].
  apply main_try_success in H as (a & st1 & entries & _ & Hagg & -> & _ & Hb).
  destruct Hagg as [L P Hh _ Hn _ _ R _].
  pose proof (Forall2_length _ _ _ P) as Hlen.
  exists entries, (status_of w a (clock w (clock_reads st1))), (function_statuses a).
  assert ((Z.of_nat (length (healthy_functions a)) =? num_checked_functions a)
          = (healthy_count (function_statuses a) =? length (function_statuses a))%nat)
    as E.
  { rewrite Hn, Hh. apply of_nat_eqb. }
  repeat split; auto.
  - cbn. now rewrite E.
  - cbn. now rewrite E.
  - intros Hz. cbn. rewrite E. rewrite Hz in Hlen. cbn in Hlen.
    destruct (function_statuses a); [reflexivity|discriminate].
Qed.

Lemma overall_state_witness :
  HttpRequest.method demo_request <> "OPTIONS" /\
  main_try demo_world demo_request initial = (Ok demo_response, demo_final) /\
  main demo_world demo_request initial = (Ok demo_response, demo_final) /\
  dict_lookup "state" (report_of demo_response) = Some (JStr "degraded") /\
  dict_lookup "availability" (report_of demo_response) = Some (JStr "limited").
Proof.
  assert (HttpRequest.method demo_request <> "OPTIONS") as Hm by discriminate.
  assert (main_try demo_world demo_request initial = (Ok demo_response, demo_final))
    as Ht by (vm_compute; reflexivity).
  split; [exact Hm|]. split; [exact Ht|].
  split; [exact (proj1 (overall_state demo_world demo_request initial demo_final
                          demo_response Hm Ht))|].
  split; vm_compute; reflexivity.
Defined.

Lemma round_hundred : (Float.round (inject_Z 100) == inject_Z 100)%Q.
Proof. apply FloatFacts.round_inject. reflexivity. Qed.

Lemma percentage_value (h n : Z) :
  (num_value (py_mul (PyFloat (py_quotient (PyInt h) (PyInt n))) (PyInt 100))
   == Float.mul (Float.round (inject_Z h / inject_Z n)) (inject_Z 100))%Q.
Proof.
  cbn [py_mul py_quotient as_float num_value]. unfold Float.mul.
  now rewrite round_hundred.
Qed.





Lemma quotient_nonneg (h n : Z) :
  0 <= h -> 0 < n -> (0 <= inject_Z h / inject_Z n)%Q.
Proof.
  intros Hh Hn. apply Qle_shift_div_l.
  - rewrite <- (Zlt_Qlt 0). exact Hn.
  - rewrite Qmult_0_l, <- (Zle_Qle 0). exact Hh.
Qed.

Lemma percentage_nonneg (h n : Z) :
  0 <= h -> 0 < n ->
  (0 <= num_value (py_mul (PyFloat (py_quotient (PyInt h) (PyInt n))) (PyInt 100)))%Q.
Proof.
  intros Hh Hn. rewrite percentage_value. unfold Float.mul.
  apply FloatFacts.round_nonneg.
  pose proof (FloatFacts.round_nonneg _ (quotient_nonneg h n Hh Hn)).
  change (inject_Z 100) with 100%Q. lra.
Qed.

Lemma health_percentage_nonneg (h : nat) (n : Z) :
  0 <= Qnum (num_value
               (if 0 <? n
                then py_mul (PyFloat (py_quotient (PyInt (Z.of_nat h)) (PyInt n)))
                            (PyInt 100)
                else PyInt 0)).
Proof.
  destruct (Z.ltb_spec 0 n) as [Hn|Hn]; [|cbn; lia].
  apply Qnum_nonneg, percentage_nonneg; lia.
Qed.

(** C9. On the success path the metrics array has exactly four entries, in
    this order: "Total Functions Checked" and "Healthy Functions" with
    integer values, "Average Response Time" with an integer text followed
    by "ms", and "Health Percentage" with a one-decimal text followed by
    "%". *)
Theorem metrics_layout (w : World) (req : HttpRequest.t) (st st' : State)
    (resp : HttpResponse.t) :
  HttpRequest.method req <> "OPTIONS" ->
  main_try w req st = (Ok resp, st') ->
  main w req st = (Ok resp, st') /\
  exists (report : dict) (total healthy : Z) (avg pct : string),
    HttpResponse.body resp = JsonText (JObj report) /\
    dict_lookup "metrics" report =
      Some (JArr [JObj [("name", JStr "Total Functions Checked");
                        ("value", JNum (PyInt total))];
                  JObj [("name", JStr "Healthy Functions");
                        ("value", JNum (PyInt healthy))];
                  JObj [("name", JStr "Average Response Time");
                        ("value", JStr (avg +:+ "ms"))];
                  JObj [("name", JStr "Health Percentage");
                        ("value", JStr (pct +:+ "%"))]]) /\
    Fmt.is_int_text avg = true /\
    Fmt.is_fixed1_text pct = true.
Proof.
  intros Hm H. split; [now apply main_get_ok|].
  apply main_try_success in H as (a & st1 & entries & _ & Hagg & -> & _ & Hb).
  destruct Hagg as [_ _ _ _ _ _ Hp _ _].
  exists (status_of w a (clock w (clock_reads st1))),
    (num_checked_functions a), (Z.of_nat (length (healthy_functions a))),
    (py_format_f 0 (avg_response_time a)), (py_format_f 1 (health_percentage a)).
  split; [exact Hb|]. split; [reflexivity|].
  split; [apply FmtFacts.format_f_0_int_text|].
  apply FmtFacts.format_f_1_fixed1_text.
  rewrite Hp. apply health_percentage_nonneg.
Qed.

Lemma metrics_layout_witness :
  HttpRequest.method demo_request <> "OPTIONS" /\
  main_try demo_world demo_request initial = (Ok demo_response, demo_final) /\
  dict_lookup "metrics" (report_of demo_response) =
    Some (JArr [JObj [("name", JStr "Total Functions Checked");
                      ("value", JNum (PyInt 3))];
                JObj [("name", JStr "Healthy Functions");
                      ("value", JNum (PyInt 1))];
                JObj [("name", JStr "Average Response Time");
                      ("value", JStr "8ms")];
                JObj [("name", JStr "Health Percentage");
                      ("value", JStr "33.3%")]]) /\
  main demo_world demo_request initial = (Ok demo_response, demo_final).
Proof.
  assert (HttpRequest.method demo_request <> "OPTIONS") as Hm by discriminate.
  assert (main_try demo_world demo_request initial = (Ok demo_response, demo_final))
    as Ht by (vm_compute; reflexivity).
  split; [exact Hm|]. split; [exact Ht|].
  split; [vm_compute; reflexivity|].
  exact (proj1 (metrics_layout demo_world demo_request initial demo_final
                  demo_response Hm Ht)).
Defined.

(** ** Faults and CORS *)

Lemma main_response (w : World) (req : HttpRequest.t) (st : State) :
  exists r st',
    main w req st = (Ok (add_cors_headers req r), st') /\
    HttpResponse.headers r = ∅ /\ HttpResponse.status_code r = 200.
Proof.
  destruct (String.eqb_spec (HttpRequest.method req) "OPTIONS") as [Hm|Hm].
  - rewrite (main_options w req st Hm). eauto.
  - destruct (main_try w req st) as [[resp|e] st1] eqn:H.
    + rewrite (main_get_ok w req _ _ _ Hm H).
      apply main_try_inv in H as [(a & st2 & _ & _ & [= ->])|(e & _ & [=])].
      eauto.
    + rewrite (main_get_raise w req _ _ _ Hm H). eauto.
Qed.

(** C7. Whatever happens the handler answers, with transport status 200.
    When discovery, probing or aggregation raises, the body is a report
    with state "error", availability "limited", last_checked, the usual
    host_names and [error] set to the text of the exception, and neither
    [functions] nor [metrics]; the fault is logged.  Such a fault comes
    from the directory listing or from a request. *)
Theorem fault_report (w : World) (req : HttpRequest.t) (st : State) :
  exists resp st',
    main w req st = (Ok resp, st') /\
    HttpResponse.status_code resp = 200 /\
    (forall e st1,
       HttpRequest.method req <> "OPTIONS" ->
       main_try w req st = (Raise e, st1) ->
       HttpResponse.body resp =
         JsonText
           (JObj [("state", JStr "error");
                  ("availability", JStr "limited");
                  ("last_checked", JStr (isoformat w (clock w (clock_reads st1))));
                  ("host_names", JArr [JStr "seeker-functions.azurewebsites.net"]);
                  ("error", JStr (exn_str e))]) /\
       error_log st' =
         error_log st ++ ["Error getting system status: " +:+ exn_str e] /\
       (listdir w = inl e \/
        exists k u, http w k u = Raised e /\ is_request_exception e = false)).
Proof.
  destruct (String.eqb_spec (HttpRequest.method req) "OPTIONS") as [Hm|Hm].
  { eexists _, _. split; [apply (main_options w req st Hm)|].
    split; [exact (proj1 (proj2 (add_cors_headers_body req _)))|].
    intros e st1 Hn. contradiction. }
  destruct (main_try w req st) as [[resp|e] st1] eqn:H.
  - exists resp, st1. split; [now apply main_get_ok|]. split.
    + apply main_try_inv in H as [(a & st2 & _ & _ & [= ->])|(e & _ & [=])].
      exact (proj1 (proj2 (add_cors_headers_body req _))).
    + intros e st2 _ [=].
  - eexists _, _. split; [apply (main_get_raise w req _ _ _ Hm H)|].
    split; [exact (proj1 (proj2 (add_cors_headers_body req _)))|].
    intros e' st2 _ [= <- <-].
    split; [exact (proj1 (add_cors_headers_body req _))|].
    apply main_try_inv in H as [(a & st2 & _ & _ & [=])|(e' & H & [= <-])].
    apply aggregate_raise in H
      as [[L ->]|(entries & probed & rest & _ & E & (k & u & K) & _ & _ & _ & Hlog)].
    + split; [reflexivity|now left].
    + split; [cbn; now rewrite Hlog|]. right. eauto.
Qed.

Lemma fault_report_witness :
  HttpRequest.method demo_request <> "OPTIONS" /\
  main_try broken_world demo_request initial
    = (Raise (mkExn OSError "[Errno 13] Permission denied"), initial) /\
  main broken_world demo_request initial = (Ok broken_response, broken_final) /\
  HttpResponse.status_code broken_response = 200 /\
  HttpResponse.body broken_response =
    JsonText
      (JObj [("state", JStr "error");
             ("availability", JStr "limited");
             ("last_checked", JStr "t+0us");
             ("host_names", JArr [JStr "seeker-functions.azurewebsites.net"]);
             ("error", JStr "[Errno 13] Permission denied")]).
Proof.
  assert (HttpRequest.method demo_request <> "OPTIONS") as Hm by discriminate.
  assert (main_try broken_world demo_request initial
          = (Raise (mkExn OSError "[Errno 13] Permission denied"), initial))
    as Ht by reflexivity.
  split; [exact Hm|]. split; [exact Ht|].
  destruct (fault_report broken_world demo_request initial)
    as (resp & st' & Hmain & Hc & Hf).
  assert (main broken_world demo_request initial = (Ok broken_response, broken_final))
    as Hb by (vm_compute; reflexivity).
  rewrite Hb in Hmain. injection Hmain as <- <-.
  split; [reflexivity|]. split; [exact Hc|].
  exact (proj1 (Hf _ _ Hm Ht)).
Defined.

(** C8. Every response carries Access-Control-Allow-Methods "GET, OPTIONS"
    and Access-Control-Allow-Headers "Content-Type".  It carries
    Access-Control-Allow-Origin exactly when the request's Origin header is
    "http://localhost:5173" or "https://seeker.cityoftraitors.com", and
    then with the value of that header. *)
Theorem cors_policy (w : World) (req : HttpRequest.t) (st : State) :
  exists resp st',
    main w req st = (Ok resp, st') /\
    let origin := Headers.sent (HttpRequest.headers req) "Origin" in
    let allow := Headers.sent (HttpResponse.headers resp) in
    (is_Some (allow "Access-Control-Allow-Origin") <->
       origin = Some "http://localhost:5173" \/
       origin = Some "https://seeker.cityoftraitors.com") /\
    (is_Some (allow "Access-Control-Allow-Origin") ->
       allow "Access-Control-Allow-Origin" = origin) /\
    allow "Access-Control-Allow-Methods" = Some "GET, OPTIONS" /\
    allow "Access-Control-Allow-Headers" = Some "Content-Type".
Proof.
  destruct (main_response w req st) as (r & st' & Hmain & Hh & _).
  exists (add_cors_headers req r), st'.
  split; [exact Hmain|]. cbv zeta.
  destruct (add_cors_headers_sent req r Hh) as (Ho & Hmth & Hhd).
  rewrite Ho, Hmth, Hhd. clear Ho Hmth Hhd.
  unfold Headers.get, Headers.sent, allowed_origins.
  destruct (HttpRequest.headers req !! Str.lower "Origin") as [v|] eqn:E;
    case_bool_decide as Hin;
    rewrite !elem_of_cons, elem_of_nil in Hin.
  - split; [split; [intros _ | eauto]|auto].
    destruct Hin as [->|[->|[]]]; auto.
  - split; [split; [intros [x [=]] |]|].
    + intros [[= ->]|[= ->]]; exfalso; apply Hin; auto.
    + split; [intros [x [=]] | auto].
  - destruct Hin as [[=]|[[=]|[]]].
  - split; [split; [intros [x [=]] | intros [[=]|[=]]]|].
    split; [intros [x [=]] | auto].
Qed.

(** ** The probe set *)

Lemma probe_set_elem (names : list string) (n : string) :
  n ∈ probe_set names <-> n ∈ names /\ n <> "callback".
Proof. unfold probe_set. rewrite list_elem_of_filter. tauto. Qed.

Lemma probe_url_not_callback (n : string) :
  n <> "callback" -> url (probe_request n) <> base_url +:+ "/callback".
Proof.
  intros Hn H. apply Hn. cbn [url probe_request] in H.
  change (base_url +:+ "/callback") with (base_url +:+ "/" +:+ "callback") in H.
  apply (inj (String.append base_url)) in H.
  now apply (inj (String.append "/")) in H.
Qed.

Lemma ProbeResult_names (names : list string) (rs : list dict) :
  Forall2 ProbeResult names rs -> map name_of rs = map Some names.
Proof.
  induction 1 as [|n r names rs P _ IH]; [reflexivity|].
  cbn [map]. now rewrite (ProbeResult_name n r P), IH.
Qed.

Lemma callback_not_excluded (item : string) :
  Str.lower item = "callback" -> excluded item = false.
Proof.
  intros H. unfold excluded.
  rewrite <- StrFacts.startswith_lower_dunder, <- StrFacts.startswith_lower_dot, H.
  destruct (String.eqb_spec item "tests") as [->|_]; [discriminate H|].
  reflexivity.
Qed.

(** C5. No request ever goes to "callback", on any path.  Discovery itself
    lists "callback" when there is such a directory.  On the success path
    the services probed, in order, are exactly the discovered names other
    than "callback"; the functions list names exactly these, and the
    metrics count them and nothing else. *)
Theorem callback_excluded (w : World) (req : HttpRequest.t) (st : State) :
  (exists resp st' probed,
     main w req st = (Ok resp, st') /\
     requests st' = requests st ++ map probe_request probed /\
     ("callback" ∉ probed) /\
     (forall rq, rq ∈ map probe_request probed ->
        url rq <> base_url +:+ "/callback")) /\
  (forall entries item,
     listdir w = inr entries -> (item, true) ∈ entries ->
     Str.lower item = "callback" ->
     exists names,
       get_function_list w st = (Ok names, st) /\ "callback" ∈ names) /\
  (forall resp st',
     HttpRequest.method req <> "OPTIONS" ->
     main_try w req st = (Ok resp, st') ->
     exists (names : list string) (report : dict) (rs : list dict),
       get_function_list w st = (Ok names, st) /\
       (forall n, n ∈ probe_set names <-> n ∈ names /\ n <> "callback") /\
       requests st' = requests st ++ map probe_request (probe_set names) /\
       HttpResponse.body resp = JsonText (JObj report) /\
       dict_lookup "functions" report = Some (JArr (map JObj rs)) /\
       map name_of rs = map Some (probe_set names) /\
       metric_value report "Total Functions Checked"
         = Some (JNum (PyInt (Z.of_nat (length (probe_set names))))) /\
       metric_value report "Healthy Functions"
         = Some (JNum (PyInt (Z.of_nat (healthy_count rs))))).
Proof.
  assert (forall probed : list string,
            "callback" ∉ probed ->
            forall rq, rq ∈ map probe_request probed ->
                       url rq <> base_url +:+ "/callback") as Hurl.
  { intros probed Hp rq (n & -> & Hn)%list_elem_of_fmap.
    apply probe_url_not_callback. intros ->. now apply Hp. }
  split; [|split].
  - destruct (String.eqb_spec (HttpRequest.method req) "OPTIONS") as [Hm|Hm].
    { eexists _, _, []. split; [apply (main_options w req st Hm)|].
      split; [cbn; now rewrite app_nil_r|].
      split; [apply not_elem_of_nil|]. apply Hurl, not_elem_of_nil. }
    destruct (main_try w req st) as [[resp|e] st1] eqn:H.
    + pose proof (main_get_ok w req _ _ _ Hm H) as Hmain.
      apply main_try_success in H as (a & st2 & entries & _ & Hagg & -> & _ & _).
      destruct Hagg as [_ _ _ _ _ _ _ R _].
      assert ("callback" ∉ probe_set (discovered entries)) as Hno.
      { intros [_ Hc]%probe_set_elem. now apply Hc. }
      exists resp, (clock_read st2), (probe_set (discovered entries)).
      split; [exact Hmain|]. split; [exact R|]. split; [exact Hno|].
      now apply Hurl.
    + pose proof (main_get_raise w req _ _ _ Hm H) as Hmain.
      apply main_try_inv in H as [(a & st2 & _ & _ & [=])|(e' & H & [= <-])].
      apply aggregate_raise in H
        as [[L ->]|(entries & probed & rest & _ & _ & _ & Hp & _ & R & _)].
      * eexists _, _, []. split; [exact Hmain|].
        split; [cbn; now rewrite app_nil_r|].
        split; [apply not_elem_of_nil|]. apply Hurl, not_elem_of_nil.
      * assert ("callback" ∉ probed) as Hno.
        { intros Hc.
          assert ("callback" ∈ probe_set (discovered entries)) as Hin
            by (rewrite Hp; apply elem_of_app; now left).
          apply probe_set_elem in Hin as [_ Hne]. now apply Hne. }
        eexists _, _, probed. split; [exact Hmain|].
        split; [exact R|]. split; [exact Hno|]. now apply Hurl.
  - intros entries item L Hin Hl.
    exists (discovered entries).
    split; [rewrite get_function_list_run; now rewrite L|].
    apply discovered_elem. exists item.
    split; [exact Hin|]. split; [now apply callback_not_excluded|]. now rewrite Hl.
  - intros resp st' Hm H.
    apply main_try_success in H as (a & st1 & entries & _ & Hagg & -> & _ & Hb).
    destruct Hagg as [L P Hh _ Hn _ _ R _].
    pose proof (Forall2_length _ _ _ P) as Hlen.
    exists (discovered entries), (status_of w a (clock w (clock_reads st1))),
      (function_statuses a).
    split; [rewrite get_function_list_run; now rewrite L|].
    split; [apply probe_set_elem|].
    split; [exact R|]. split; [exact Hb|]. split; [reflexivity|].
    split; [now apply ProbeResult_names|].
    split.
    + cbn. now rewrite Hn, Hlen.
    + cbn. now rewrite Hh.
Qed.

Lemma callback_excluded_witness :
  HttpRequest.method demo_request <> "OPTIONS" /\
  main_try demo_world demo_request initial = (Ok demo_response, demo_final) /\
  get_function_list demo_world initial
    = (Ok ["getuser"; "callback"; "createusertable"; "tests"], initial) /\
  map url (requests demo_final) =
    ["https://seeker-functions.azurewebsites.net/api/getuser";
     "https://seeker-functions.azurewebsites.net/api/createusertable";
     "https://seeker-functions.azurewebsites.net/api/tests"] /\
  metric_value (report_of demo_response) "Total Functions Checked"
    = Some (JNum (PyInt 3)).
Proof.
  assert (HttpRequest.method demo_request <> "OPTIONS") as Hm by discriminate.
  assert (main_try demo_world demo_request initial = (Ok demo_response, demo_final))
    as Ht by (vm_compute; reflexivity).
  split; [exact Hm|]. split; [exact Ht|].
  destruct (proj2 (proj2 (callback_excluded demo_world demo_request initial))
              demo_response demo_final Hm Ht)
    as (names & report & rs & Hg & _ & Hr & Hb & _ & _ & Htot & _).
  assert (get_function_list demo_world initial
          = (Ok ["getuser"; "callback"; "createusertable"; "tests"], initial))
    as Hg' by reflexivity.
  rewrite Hg' in Hg. injection Hg as <-.
  split; [reflexivity|].
  split; [rewrite Hr; reflexivity|].
  unfold report_of. rewrite Hb. exact Htot.
Defined.

Lemma cors_policy_witness :
  Headers.sent (HttpResponse.headers demo_response) "Access-Control-Allow-Origin"
    = Some "http://localhost:5173" /\
  Headers.sent (HttpResponse.headers demo_response) "Access-Control-Allow-Methods"
    = Some "GET, OPTIONS" /\
  Headers.sent (HttpResponse.headers demo_response) "Access-Control-Allow-Headers"
    = Some "Content-Type".
Proof.
  destruct (cors_policy demo_world demo_request initial)
    as (resp & st' & Hmain & Ho & Hv & Hm & Hh).
  assert (main demo_world demo_request initial = (Ok demo_response, demo_final))
    as Hd by (vm_compute; reflexivity).
  rewrite Hd in Hmain. injection Hmain as <- <-.
  split; [|split; [exact Hm|exact Hh]].
  rewrite Hv; [reflexivity|]. apply Ho. left. reflexivity.
Defined.

(** * Further properties of the handler *)

(** ** The probes in detail *)

Section ProbeDetail.
Context (w : World).

Lemma check_function_detail (func_name : string) (st st' : State) (r : dict) :
  check_function w func_name st = (Ok r, st') ->
  (exists code,
     http w (length (requests st)) (base_url +:+ "/" +:+ func_name) = Responded code /\
     r = responded_result func_name code
           (elapsed_ms (clock w (clock_reads st)) (clock w (S (clock_reads st)))) /\
     st' = clock_read (request_sent (probe_request func_name) (clock_read st))) \/
  (exists e,
     http w (length (requests st)) (base_url +:+ "/" +:+ func_name) = Raised e /\
     is_request_exception e = true /\
     r = failed_result func_name e /\
     st' = request_sent (probe_request func_name) (clock_read st)).
Proof.
  rewrite check_function_run. cbv zeta.
  destruct (http w _ _) as [code|e].
  - intros [= <- <-]. left. eauto.
  - destruct (is_request_exception e) eqn:E; intros [= <- <-]. right. eauto.
Qed.

Lemma is_running_responded (func_name : string) (code : Z) (q : Q) :
  is_running (responded_result func_name code q) = (code <? 500).
Proof. unfold is_running. cbn. now destruct (code <? 500). Qed.

Lemma check_all_detail (names : list string) :
  forall (st st' : State) (rs : list dict),
  check_all w names st = (Ok rs, st') ->
  (forall (i : nat) (n : string) (r : dict),
     names !! i = Some n -> rs !! i = Some r ->
     (is_running r = true <->
      exists code,
        http w (length (requests st) + i) (base_url +:+ "/" +:+ n) = Responded code /\
        code < 500)) /\
  clock_reads st' = (clock_reads st + sum_list (map probe_reads rs))%nat /\
  Forall (Measured w) rs.
Proof.
  induction names as [|n names IH]; intros st st' rs; cbn [check_all].
  - intros [= <- <-]. split; [intros i m r [=]|].
    split; [cbn; lia|constructor].
  - intros H. apply bind_inv in H as [(r & st1 & H1 & H)|(e & _ & [=])].
    apply bind_inv in H as [(rs' & st2 & H2 & H)|(e & _ & [=])].
    injection H as <- <-.
    pose proof (check_function_ok w _ _ _ _ H1) as [_ R1].
    apply IH in H2 as (Hrun & Hclk & Hm).
    apply check_function_detail in H1
      as [(code & O & -> & ->)|(e & O & E & -> & ->)].
    + split; [|split].
      * intros [|i] m r Hn Hr; cbn in Hn, Hr.
        -- injection Hn as <-. injection Hr as <-.
           rewrite Nat.add_0_r, is_running_responded, O. split.
           ++ intros Hc. exists code. split; [reflexivity|]. now apply Z.ltb_lt.
           ++ intros (c & [= <-] & Hc). now apply Z.ltb_lt.
        -- rewrite (Hrun i m r Hn Hr), R1, length_app. cbn [length].
           now replace (length (requests st) + 1 + i)%nat
             with (length (requests st) + S i)%nat by lia.
      * rewrite Hclk. cbn. lia.
      * constructor; [|exact Hm]. eapply measured_response. reflexivity.
    + split; [|split].
      * intros [|i] m r Hn Hr; cbn in Hn, Hr.
        -- injection Hn as <-. injection Hr as <-.
           rewrite Nat.add_0_r, O. split; [discriminate|].
           intros (c & [=] & _).
        -- rewrite (Hrun i m r Hn Hr), R1, length_app. cbn [length].
           now replace (length (requests st) + 1 + i)%nat
             with (length (requests st) + S i)%nat by lia.
      * rewrite Hclk. cbn. lia.
      * constructor; [|exact Hm]. eapply measured_failure. reflexivity.
Qed.

Lemma check_all_stop (names : list string) :
  forall (st st' : State) (e : Exn),
  check_all w names st = (Raise e, st') ->
  exists probed n rest,
    names = probed ++ n :: rest /\
    requests st' = requests st ++ map probe_request (probed ++ [n]) /\
    http w (length (requests st) + length probed) (base_url +:+ "/" +:+ n) = Raised e /\
    is_request_exception e = false /\
    (forall (i : nat) (m : string) (e' : Exn),
       probed !! i = Some m ->
       http w (length (requests st) + i) (base_url +:+ "/" +:+ m) = Raised e' ->
       is_request_exception e' = true).
Proof.
  induction names as [|n names IH]; intros st st' e; cbn [check_all].
  - discriminate.
  - intros H. apply bind_inv in H as [(r & st1 & H1 & H)|(e' & H1 & [= <-])].
    + apply bind_inv in H as [(rs' & st2 & H2 & [=])|(e' & H2 & [= <-])].
      pose proof (check_function_ok w _ _ _ _ H1) as [_ R1].
      apply IH in H2 as (probed & m & rest & -> & R2 & O & E & Hprev).
      exists (n :: probed), m, rest. split; [reflexivity|].
      split; [rewrite R2, R1; cbn [map app]; now rewrite <- app_assoc|].
      rewrite R1, length_app in O, Hprev. cbn [length] in *.
      split; [|split; [exact E|]].
      * now replace (length (requests st) + S (length probed))%nat
          with (length (requests st) + 1 + length probed)%nat by lia.
      * intros [|i] k e'' Hk Hh; cbn in Hk.
        -- injection Hk as <-. rewrite Nat.add_0_r in Hh.
           apply check_function_detail in H1
             as [(code & O1 & _)|(e1 & O1 & E1 & _)]; congruence.
        -- apply (Hprev i k e'' Hk).
           now replace (length (requests st) + 1 + i)%nat
             with (length (requests st) + S i)%nat by lia.
    + apply check_function_raise in H1 as (E & O & R1).
      exists [], n, names. split; [reflexivity|]. split; [exact R1|].
      split; [cbn [length]; now rewrite Nat.add_0_r|].
      split; [exact E|]. intros i m e' [=].
Qed.

Lemma check_all_fault (probed : list string) (n : string) (rest : list string)
    (e : Exn) :
  forall st : State,
  (forall (i : nat) (m : string) (e' : Exn),
     probed !! i = Some m ->
     http w (length (requests st) + i) (base_url +:+ "/" +:+ m) = Raised e' ->
     is_request_exception e' = true) ->
  http w (length (requests st) + length probed) (base_url +:+ "/" +:+ n) = Raised e ->
  is_request_exception e = false ->
  exists st',
    check_all w (probed ++ n :: rest) st = (Raise e, st') /\
    requests st' = requests st ++ map probe_request (probed ++ [n]) /\
    error_log st' = error_log st.
Proof.
  induction probed as [|m probed IH]; intros st Hprev O E.
  - cbn [app length] in *. rewrite Nat.add_0_r in O.
    eexists. split; [|split].
    + cbn [check_all]. apply bind_raise.
      rewrite check_function_run, O. cbv zeta. now rewrite E.
    + reflexivity.
    + reflexivity.
  - assert (exists r st1,
              check_function w m st = (Ok r, st1) /\
              requests st1 = requests st ++ [probe_request m] /\
              error_log st1 = error_log st) as (r & st1 & H1 & R1 & L1).
    { rewrite check_function_run. cbv zeta.
      destruct (http w (length (requests st)) (base_url +:+ "/" +:+ m))
        as [code|e'] eqn:O1.
      - eexists _, _. split; [reflexivity|]. split; reflexivity.
      - rewrite (Hprev 0%nat m e'); [|reflexivity|now rewrite Nat.add_0_r].
        eexists _, _. split; [reflexivity|]. split; reflexivity. }
    destruct (IH st1) as (st' & H2 & R2 & L2).
    + intros i k e' Hk Hh. apply (Hprev (S i) k e'); [exact Hk|].
      rewrite R1, length_app in Hh. cbn [length] in Hh.
      now replace (length (requests st) + S i)%nat
        with (length (requests st) + 1 + i)%nat by lia.
    + rewrite R1, length_app. cbn [length].
      now replace (length (requests st) + 1 + length probed)%nat
        with (length (requests st) + length (m :: probed))%nat by (cbn [length]; lia).
    + exact E.
    + exists st'. split; [|split].
      * cbn [app check_all]. rewrite (bind_ok _ _ _ _ _ H1).
        now apply bind_raise.
      * rewrite R2, R1. cbn [app map]. now rewrite <- app_assoc.
      * now rewrite L2, L1.
Qed.

End ProbeDetail.

(** ** The [try] block in detail *)

Section TryDetail.
Context (w : World).

Lemma aggregate_probes (st st' : State) (a : Aggregates) :
  aggregate w st = (Ok a, st') ->
  exists entries,
    listdir w = inr entries /\
    check_all w (probe_set (discovered entries)) st = (Ok (function_statuses a), st').
Proof.
  unfold aggregate. rewrite bind_run, get_function_list_run.
  destruct (listdir w) as [e|entries] eqn:L; [discriminate|].
  rewrite probe_set_discovered.
  set (to_check := probe_set (discovered entries)).
  intros H. exists entries. split; [reflexivity|].
  apply bind_inv in H as [(rs & st1 & H1 & H)|(e & _ & [=])].
  fold to_check. rewrite H1.
  apply check_all_ok in H1 as [P _].
  pose proof (Forall2_ProbeResult_Forall _ _ P) as F.
  rewrite (bind_ok _ _ st1 st1 _ (healthy_of_run rs st1 F)) in H.
  pose proof (sum_elapsed_run rs F (PyInt 0) st1) as Ht.
  rewrite (bind_ok _ _ st1 st1 _ Ht) in H.
  destruct (Z.ltb_spec 0 (Z.of_nat (length to_check))) as [Hn|Hn].
  - rewrite (bind_ok _ _ st1 st1 _ (py_truediv_run _ _ st1 Hn)) in H.
    rewrite (bind_ok _ _ st1 st1 _
               (bind_ok _ _ st1 st1 _ (py_truediv_run _ _ st1 Hn))) in H.
    now injection H as <- <-.
  - now injection H as <- <-.
Qed.

Lemma aggregate_stops (st st' : State) (e : Exn) :
  aggregate w st = (Raise e, st') ->
  (listdir w = inl e /\ st' = st) \/
  (exists entries,
     listdir w = inr entries /\
     check_all w (probe_set (discovered entries)) st = (Raise e, st')).
Proof.
  intros H.
  destruct (aggregate_raise w _ _ _ H) as [?|(entries & _ & _ & L & _)]; [now left|].
  right. exists entries. split; [exact L|].
  revert H. unfold aggregate. rewrite bind_run, get_function_list_run, L.
  rewrite probe_set_discovered.
  set (to_check := probe_set (discovered entries)).
  intros H.
  apply bind_inv in H as [(rs & st1 & H1 & H)|(e' & H1 & [= <-])]; [|exact H1].
  exfalso.
  apply check_all_ok in H1 as [P _].
  pose proof (Forall2_ProbeResult_Forall _ _ P) as F.
  rewrite (bind_ok _ _ st1 st1 _ (healthy_of_run rs st1 F)) in H.
  pose proof (sum_elapsed_run rs F (PyInt 0) st1) as Ht.
  rewrite (bind_ok _ _ st1 st1 _ Ht) in H.
  destruct (Z.ltb_spec 0 (Z.of_nat (length to_check))) as [Hn|Hn].
  - rewrite (bind_ok _ _ st1 st1 _ (py_truediv_run _ _ st1 Hn)) in H.
    rewrite (bind_ok _ _ st1 st1 _
               (bind_ok _ _ st1 st1 _ (py_truediv_run _ _ st1 Hn))) in H.
    discriminate.
  - discriminate.
Qed.

Lemma healthy_all_iff (rs : list dict) :
  (healthy_count rs =? length rs)%nat = true <-> Forall (fun r => is_running r = true) rs.
Proof.
  unfold healthy_count. rewrite Nat.eqb_eq. induction rs as [|r rs IH].
  - split; [constructor|reflexivity].
  - cbn [List.filter]. destruct (is_running r) eqn:E; cbn [length].
    + split.
      * intros [= Hl]. constructor; [exact E|now apply IH].
      * intros Hf. inversion Hf; subst. f_equal. now apply IH.
    + pose proof (filter_length_le is_running rs). split; [lia|].
      intros Hf. inversion Hf; subst. congruence.
Qed.

End TryDetail.

(** ** Preflight, faults and the overall state *)

(** X1. An OPTIONS request is answered at once with an empty body and
    status 200: the state of the world is left as it was (no request goes
    out, the clock is not read, nothing is logged), and the answer does
    not depend on the deployment. *)
Theorem options_preflight (w w' : World) (req : HttpRequest.t) (st : State) :
  HttpRequest.method req = "OPTIONS" ->
  exists resp,
    main w req st = (Ok resp, st) /\
    main w' req st = (Ok resp, st) /\
    HttpResponse.body resp = NoBody /\
    HttpResponse.status_code resp = 200.
Proof.
  intros Hm. eexists. rewrite !(main_options _ req st Hm).
  split; [reflexivity|]. split; [reflexivity|].
  split; [exact (proj1 (add_cors_headers_body req _))|].
  exact (proj1 (proj2 (add_cors_headers_body req _))).
Qed.

Lemma options_preflight_witness :
  HttpRequest.method options_request = "OPTIONS" /\
  exists resp,
    main demo_world options_request initial = (Ok resp, initial) /\
    main broken_world options_request initial = (Ok resp, initial) /\
    HttpResponse.body resp = NoBody /\
    HttpResponse.status_code resp = 200.
Proof.
  split; [reflexivity|].
  exact (options_preflight demo_world broken_world options_request initial eq_refl).
Defined.

(** X2. When a request raises something other than a [RequestException]
    while every earlier probe was answered or raised a [RequestException],
    probing stops there: the [try] block raises that exception, the
    requests that went out are those of the probe set up to and including
    the failing one, no further request is sent, the fault is logged, and
    the handler answers with status 200 and a report of state "error" that
    carries the text of the exception and has no [functions] and no
    [metrics]. *)
Theorem fault_stops_probing (w : World) (req : HttpRequest.t) (st : State)
    (entries : list (string * bool)) (probed : list string) (n : string)
    (rest : list string) (e : Exn) :
  HttpRequest.method req <> "OPTIONS" ->
  listdir w = inr entries ->
  probe_set (discovered entries) = probed ++ n :: rest ->
  (forall (i : nat) (m : string) (e' : Exn),
     probed !! i = Some m ->
     http w (length (requests st) + i) (base_url +:+ "/" +:+ m) = Raised e' ->
     is_request_exception e' = true) ->
  http w (length (requests st) + length probed) (base_url +:+ "/" +:+ n) = Raised e ->
  is_request_exception e = false ->
  exists (resp : HttpResponse.t) (st1 st' : State),
    main_try w req st = (Raise e, st1) /\
    main w req st = (Ok resp, st') /\
    requests st' = requests st ++ map probe_request (probed ++ [n]) /\
    error_log st' = error_log st ++ ["Error getting system status: " +:+ exn_str e] /\
    HttpResponse.status_code resp = 200 /\
    dict_lookup "state" (report_of resp) = Some (JStr "error") /\
    dict_lookup "error" (report_of resp) = Some (JStr (exn_str e)) /\
    dict_lookup "functions" (report_of resp) = None /\
    dict_lookup "metrics" (report_of resp) = None.
Proof.
  intros Hm L Hp Hprev O E.
  destruct (check_all_fault w probed n rest e st Hprev O E) as (st1 & Hc & R & Hl).
  assert (aggregate w st = (Raise e, st1)) as Ha.
  { unfold aggregate.
    rewrite bind_run, get_function_list_run, L, probe_set_discovered, Hp.
    now apply bind_raise. }
  pose proof (main_try_raise w req _ _ _ Ha) as Ht.
  pose proof (main_get_raise w req _ _ _ Hm Ht) as Hmain.
  eexists _, st1, _. split; [exact Ht|]. split; [exact Hmain|].
  split; [exact R|]. split; [cbn; now rewrite Hl|].
  split; [exact (proj1 (proj2 (add_cors_headers_body req _)))|].
  unfold report_of. rewrite (proj1 (add_cors_headers_body req _)).
  repeat split; reflexivity.
Qed.

Lemma fault_stops_probing_witness :
  HttpRequest.method demo_request <> "OPTIONS" /\
  probe_set (discovered
    [("getUser", true); ("Callback", true); ("tests", true);
     ("__pycache__", true); ("host.json", false);
     ("GetSystemStatus", true); ("createUserTable", true);
     (".git", true); ("Tests", true)])
    = ["getuser"] ++ "createusertable" :: ["tests"] /\
  http crashing_world 0 (base_url +:+ "/" +:+ "getuser") = Responded 200 /\
  http crashing_world 1 (base_url +:+ "/" +:+ "createusertable")
    = Raised (mkExn OtherError "unexpected") /\
  map url (requests (snd (main crashing_world demo_request initial))) =
    ["https://seeker-functions.azurewebsites.net/api/getuser";
     "https://seeker-functions.azurewebsites.net/api/createusertable"] /\
  dict_lookup "error"
    (report_of (response_of (main crashing_world demo_request initial)))
    = Some (JStr "unexpected") /\
  dict_lookup "functions"
    (report_of (response_of (main crashing_world demo_request initial))) = None.
Proof.
  assert (HttpRequest.method demo_request <> "OPTIONS") as Hm by discriminate.
  split; [exact Hm|]. split; [reflexivity|]. split; [reflexivity|].
  split; [reflexivity|].
  destruct (fault_stops_probing crashing_world demo_request initial _
              ["getuser"] "createusertable" ["tests"]
              (mkExn OtherError "unexpected") Hm eq_refl eq_refl)
    as (resp & st1 & st' & _ & Hmain & R & _ & _ & _ & He & Hf & _).
  - intros [|i] m e' Hi Hh; [discriminate Hh|discriminate Hi].
  - reflexivity.
  - reflexivity.
  - rewrite Hmain. cbn [snd fst response_of].
    split; [rewrite R; reflexivity|]. split; [exact He|exact Hf].
Defined.

(** X3. On the success path the overall state is "running" exactly when
    every probe of the probe set, in order, got a response with a status
    code below 500; otherwise it is "degraded". *)
Theorem state_running_iff_all_respond (w : World) (req : HttpRequest.t)
    (st st' : State) (resp : HttpResponse.t) (entries : list (string * bool)) :
  listdir w = inr entries ->
  main_try w req st = (Ok resp, st') ->
  let all_respond :=
    forall (i : nat) (n : string),
      probe_set (discovered entries) !! i = Some n ->
      exists code,
        http w (length (requests st) + i) (base_url +:+ "/" +:+ n) = Responded code /\
        code < 500 in
  (dict_lookup "state" (report_of resp) = Some (JStr "running") <-> all_respond) /\
  (dict_lookup "state" (report_of resp) = Some (JStr "degraded") <-> ~ all_respond).
Proof.
  intros L H. cbv zeta.
  apply main_try_success in H as (a & st1 & entries' & Ha & Hagg & -> & _ & Hb).
  destruct Hagg as [L' P Hh _ Hn _ _ _ _].
  assert (entries' = entries) as -> by congruence.
  apply aggregate_probes in Ha as (entries' & L'' & Hc).
  assert (entries' = entries) as -> by congruence.
  apply check_all_detail in Hc as (Hrun & _ & _).
  pose proof (Forall2_length _ _ _ P) as Hlen.
  unfold report_of. rewrite Hb. cbn.
  assert ((Z.of_nat (length (healthy_functions a)) =? num_checked_functions a)
          = (healthy_count (function_statuses a) =? length (function_statuses a))%nat)
    as ->.
  { rewrite Hn, Hh. apply of_nat_eqb. }
  assert (Forall (fun r => is_running r = true) (function_statuses a) <->
          forall (i : nat) (n : string),
            probe_set (discovered entries) !! i = Some n ->
            exists code,
              http w (length (requests st) + i) (base_url +:+ "/" +:+ n)
                = Responded code /\ code < 500) as Hall.
  { rewrite Forall_lookup. split.
    - intros Hf i n Hi.
      destruct (lookup_lt_is_Some_2 (function_statuses a) i) as [r Hr].
      { rewrite <- Hlen. now apply lookup_lt_Some in Hi. }
      apply (Hrun i n r Hi Hr). now apply (Hf i r).
    - intros Hw i r Hr.
      destruct (lookup_lt_is_Some_2 (probe_set (discovered entries)) i) as [n Hi].
      { rewrite Hlen. now apply lookup_lt_Some in Hr. }
      apply (Hrun i n r Hi Hr). now apply Hw. }
  rewrite <- Hall, <- healthy_all_iff.
  destruct (healthy_count (function_statuses a) =? length (function_statuses a))%nat.
  - split; split; auto; try discriminate. intros Hne. now contradiction Hne.
  - split; split; auto; discriminate.
Qed.

Lemma state_running_iff_all_respond_witness :
  main_try healthy_world demo_request initial
    = (Ok (response_of (main healthy_world demo_request initial)),
       snd (main healthy_world demo_request initial)) /\
  dict_lookup "state"
    (report_of (response_of (main healthy_world demo_request initial)))
    = Some (JStr "running") /\
  (forall (i : nat) (n : string),
     probe_set (discovered
       [("getUser", true); ("Callback", true); ("tests", true);
        ("__pycache__", true); ("host.json", false);
        ("GetSystemStatus", true); ("createUserTable", true);
        (".git", true); ("Tests", true)]) !! i = Some n ->
     exists code,
       http healthy_world (length (requests initial) + i) (base_url +:+ "/" +:+ n)
         = Responded code /\ code < 500).
Proof.
  assert (main_try healthy_world demo_request initial
          = (Ok (response_of (main healthy_world demo_request initial)),
             snd (main healthy_world demo_request initial))) as Ht
    by (vm_compute; reflexivity).
  split; [exact Ht|].
  assert (dict_lookup "state"
            (report_of (response_of (main healthy_world demo_request initial)))
          = Some (JStr "running")) as Hs by (vm_compute; reflexivity).
  split; [exact Hs|].
  exact (proj1 (proj1 (state_running_iff_all_respond healthy_world demo_request
                         initial _ _ _ eq_refl Ht)) Hs).
Defined.

(** ** Bounds and invariants *)

Lemma percentage_bounds (h n : Z) :
  0 <= h <= n -> 0 < n ->
  let pct := num_value (py_mul (PyFloat (py_quotient (PyInt h) (PyInt n))) (PyInt 100)) in
  (0 <= pct)%Q /\ (pct <= 100)%Q /\
  (h = n -> (pct == 100)%Q) /\
  (n < 2 ^ 54 -> (pct == 100)%Q -> h = n).
Proof.
  intros Hh Hn. cbv zeta.
  split; [apply percentage_nonneg; lia|].
  rewrite percentage_value. unfold Float.mul.
  assert (0 < inject_Z n)%Q as Hq by (rewrite <- (Zlt_Qlt 0); exact Hn).
  pose proof (FloatFacts.round_nonneg _ (quotient_nonneg h n ltac:(lia) Hn)) as H0.
  set (x := (inject_Z h / inject_Z n)%Q) in *.
  assert (Float.round 1 == 1)%Q as R1 by (vm_compute; reflexivity).
  assert (Float.round 100 == 100)%Q as R100 by (vm_compute; reflexivity).
  change (inject_Z 100) with 100%Q.
  split; [|split].
  - assert (x <= 1)%Q as Hx.
    { apply Qle_shift_div_r; [exact Hq|]. rewrite Qmult_1_l, <- Zle_Qle. lia. }
    pose proof (FloatFacts.round_le _ _ Hx) as Hr. rewrite R1 in Hr.
    apply Qle_trans with (Float.round 100); [|now rewrite R100].
    apply FloatFacts.round_le. lra.
  - intros ->.
    assert (x == 1)%Q as Hx by (unfold x; field; lra).
    rewrite Hx, R1, Qmult_1_l. exact R100.
  - intros Hsmall Hfull.
    destruct (Z.eq_dec h n) as [|Hne]; [assumption|exfalso].
    assert (x <= 18014398509481982 # 18014398509481983)%Q as Hx.
    { apply Qle_shift_div_r; [exact Hq|].
      unfold Qle, Qmult, inject_Z. cbn [Qnum Qden]. lia. }
    pose proof (FloatFacts.round_le _ _ Hx) as Hr.
    assert (Float.round (18014398509481982 # 18014398509481983)
            == 9007199254740991 # 9007199254740992)%Q as R0
      by (vm_compute; reflexivity).
    rewrite R0 in Hr.
    assert (Float.round x * 100 <= (9007199254740991 # 9007199254740992) * 100)%Q
      as Hm by lra.
    pose proof (FloatFacts.round_le _ _ Hm) as Hp.
    assert (Float.round ((9007199254740991 # 9007199254740992) * 100)
            == 7036874417766399 # 70368744177664)%Q as R2
      by (vm_compute; reflexivity).
    rewrite R2, Hfull in Hp. revert Hp. vm_compute. intros Hp. now apply Hp.
Qed.

(** from 2^54 services on, the percentage no longer tells 100% apart *)
Example percentage_saturates :
  (num_value (py_mul (PyFloat (py_quotient (PyInt (2 ^ 54 - 1)) (PyInt (2 ^ 54))))
                     (PyInt 100)) == 100)%Q.
Proof. vm_compute. reflexivity. Qed.

(** X4. On the success path the healthy count never exceeds the number of
    probed services, the health percentage lies between 0 and 100, and,
    when something was probed, it is 100 when every probe result is
    healthy, and only then as long as fewer than 2^54 services are probed
    (beyond that the quotient of the two counts may round to 1). *)
Theorem health_percentage_bounds (w : World) (st st' : State) (a : Aggregates) :
  aggregate w st = (Ok a, st') ->
  (length (healthy_functions a) <= length (function_statuses a))%nat /\
  (0 <= num_value (health_percentage a))%Q /\
  (num_value (health_percentage a) <= 100)%Q /\
  (function_statuses a <> [] ->
   (length (healthy_functions a) = length (function_statuses a) ->
    (num_value (health_percentage a) == 100)%Q) /\
   (Z.of_nat (length (function_statuses a)) < 2 ^ 54 ->
    (num_value (health_percentage a) == 100)%Q ->
    length (healthy_functions a) = length (function_statuses a))).
Proof.
  intros H. destruct (aggregate_ok w _ _ _ H) as [entries [_ _ Hh _ Hn _ Hp _ _]].
  assert (length (healthy_functions a) <= length (function_statuses a))%nat as Hle
    by (rewrite Hh; apply filter_length_le).
  split; [exact Hle|]. rewrite Hp, Hn.
  destruct (Z.ltb_spec 0 (Z.of_nat (length (function_statuses a)))) as [Hpos|Hz].
  - destruct (percentage_bounds (Z.of_nat (length (healthy_functions a)))
                (Z.of_nat (length (function_statuses a)))) as (B0 & B1 & B2 & B3);
      [lia|lia|].
    split; [exact B0|]. split; [exact B1|].
    intros _. split.
    + intros E. apply B2. now rewrite E.
    + intros Hsmall Hfull. apply Nat2Z.inj. now apply B3.
  - cbn [num_value]. split; [discriminate|]. split; [discriminate|].
    intros Hne. destruct (function_statuses a); [congruence|cbn in Hz; lia].
Qed.

Lemma health_percentage_bounds_witness :
  aggregate demo_world initial
    = (Ok demo_aggregates, snd (aggregate demo_world initial)) /\
  (length (healthy_functions demo_aggregates)
   <= length (function_statuses demo_aggregates))%nat /\
  (0 <= num_value (health_percentage demo_aggregates))%Q /\
  (num_value (health_percentage demo_aggregates) <= 100)%Q.
Proof.
  assert (aggregate demo_world initial
          = (Ok demo_aggregates, snd (aggregate demo_world initial))) as H
    by (vm_compute; reflexivity).
  split; [exact H|].
  destruct (health_percentage_bounds demo_world initial _ _ H) as (B0 & B1 & B2 & _).
  auto.
Defined.

Lemma elapsed_ms_nonneg (t0 t1 : Z) : t0 <= t1 -> 0 <= Qnum (elapsed_ms t0 t1).
Proof.
  intros H. pose proof (elapsed_ms_sign t0 t1) as Hs.
  destruct (Z.ltb_spec t1 t0); [lia|]. now apply Z.ltb_ge in Hs.
Qed.

Lemma no_minus_sign (x : Q) (t : string) :
  0 <= Qnum x -> Str.startswith (Fmt.format_f 0 x +:+ t) "-" = false.
Proof.
  intros Hx. rewrite FmtFacts.format_f_0.
  destruct (Z.ltb_spec (Qnum x) 0); [lia|].
  pose proof (FmtFacts.str_nonneg_digits (Fmt.scaled 0 x)) as Hd.
  change ("" +:+ Fmt.str_nonneg (Fmt.scaled 0 x)) with (Fmt.str_nonneg (Fmt.scaled 0 x)).
  destruct (Fmt.str_nonneg (Fmt.scaled 0 x)) as [|c s]; [discriminate|].
  unfold Str.is_digits in Hd. cbn [String.eqb negb andb Str.all_digits] in Hd.
  apply andb_prop in Hd as [Hc _].
  apply StrFacts.is_digit_not_minus in Hc.
  unfold Str.startswith. rewrite FmtFacts.append_cons. cbn [String.prefix].
  destruct (ascii_dec "-" c) as [E|_]; [|reflexivity].
  symmetry in E. contradiction.
Qed.

Lemma as_float_nonneg (a : pynum) : (0 <= num_value a)%Q -> (0 <= as_float a)%Q.
Proof.
  destruct a as [z|q]; cbn [num_value as_float]; [|auto].
  apply FloatFacts.round_nonneg.
Qed.

Lemma py_add_nonneg (a b : pynum) :
  (0 <= num_value a)%Q -> (0 <= num_value b)%Q -> (0 <= num_value (py_add a b))%Q.
Proof.
  intros Ha Hb.
  assert (0 <= num_value (PyFloat (Float.add (as_float a) (as_float b))))%Q as Hf.
  { cbn [num_value]. unfold Float.add. apply FloatFacts.round_nonneg.
    pose proof (as_float_nonneg a Ha). pose proof (as_float_nonneg b Hb). lra. }
  destruct a as [x|p], b as [y|q]; try exact Hf.
  cbn [py_add num_value] in *. rewrite <- (Zle_Qle 0) in *. lia.
Qed.

Lemma py_quotient_nonneg (a : pynum) (n : Z) :
  (0 <= num_value a)%Q -> 0 < n -> (0 <= py_quotient a (PyInt n))%Q.
Proof.
  intros Ha Hn.
  assert (0 < inject_Z n)%Q as Hq by (rewrite <- (Zlt_Qlt 0); exact Hn).
  destruct a as [x|p]; cbn [py_quotient as_float num_value] in *.
  - apply FloatFacts.round_nonneg, Qle_shift_div_l; [exact Hq|]. now rewrite Qmult_0_l.
  - unfold Float.div. apply FloatFacts.round_nonneg, Qle_shift_div_l.
    + now apply FloatFacts.round_pos_lt.
    + now rewrite Qmult_0_l.
Qed.

Lemma elapsed_of_num (r : dict) : elapsed_of r = num_value (elapsed_num r).
Proof.
  unfold elapsed_of, elapsed_num.
  destruct (dict_lookup "elapsed" r) as [[]|]; reflexivity.
Qed.

Lemma elapsed_sum_nonneg (rs : list dict) :
  Forall (fun r => (0 <= elapsed_of r)%Q) rs -> (0 <= num_value (elapsed_sum rs))%Q.
Proof.
  unfold elapsed_sum.
  assert (0 <= num_value (PyInt 0))%Q as H0 by discriminate.
  revert H0. generalize (PyInt 0) as total.
  intros total H0 H. revert total H0.
  induction H as [|r rs Hr _ IH]; intros total H0; [exact H0|].
  cbn [map fold_left]. apply IH, py_add_nonneg; [exact H0|].
  now rewrite <- elapsed_of_num.
Qed.

(** X5. When the clock never goes backwards, no probe result has a
    negative [elapsed], no [response_time] starts with a minus sign, and
    the total and the average response time are not negative. *)
Theorem durations_nonneg (w : World) (st st' : State) (a : Aggregates) :
  (forall k, clock w k <= clock w (S k)) ->
  aggregate w st = (Ok a, st') ->
  Forall (fun r =>
            (0 <= elapsed_of r)%Q /\
            exists t, dict_lookup "response_time" r = Some (JStr t) /\
                      Str.startswith t "-" = false)
         (function_statuses a) /\
  (0 <= num_value (total_response_time a))%Q /\
  (0 <= num_value (avg_response_time a))%Q.
Proof.
  intros Hclk H.
  destruct (aggregate_ok w _ _ _ H) as [entries [_ _ _ Ht Hn Ha _ _ _]].
  apply aggregate_probes in H as (entries' & _ & Hc).
  apply check_all_detail in Hc as (_ & _ & Hm).
  assert (Forall (fun r =>
            (0 <= elapsed_of r)%Q /\
            exists t, dict_lookup "response_time" r = Some (JStr t) /\
                      Str.startswith t "-" = false)
         (function_statuses a)) as Hall.
  { eapply Forall_impl; [exact Hm|]. intros r [n code k ->|n e ->].
    - pose proof (elapsed_ms_nonneg _ _ (Hclk k)) as Hq. split.
      + now apply Qnum_nonneg.
      + eexists. split; [reflexivity|]. now apply no_minus_sign.
    - split; [discriminate|]. eexists. split; reflexivity. }
  split; [exact Hall|].
  assert (0 <= num_value (total_response_time a))%Q as Htot.
  { rewrite Ht. apply elapsed_sum_nonneg.
    eapply Forall_impl; [exact Hall|]. now intros r [? _]. }
  split; [exact Htot|].
  rewrite Ha. destruct (Z.ltb_spec 0 (num_checked_functions a)) as [Hpos|_];
    [|discriminate].
  cbn [num_value]. now apply py_quotient_nonneg.
Qed.

Lemma durations_nonneg_witness :
  (forall k, clock demo_world k <= clock demo_world (S k)) /\
  aggregate demo_world initial
    = (Ok demo_aggregates, snd (aggregate demo_world initial)) /\
  (0 <= num_value (total_response_time demo_aggregates))%Q /\
  (0 <= num_value (avg_response_time demo_aggregates))%Q.
Proof.
  assert (forall k, clock demo_world k <= clock demo_world (S k)) as Hclk
    by (intros k; cbn [clock demo_world]; lia).
  assert (aggregate demo_world initial
          = (Ok demo_aggregates, snd (aggregate demo_world initial))) as H
    by (vm_compute; reflexivity).
  split; [exact Hclk|]. split; [exact H|].
  exact (proj2 (durations_nonneg demo_world initial _ _ Hclk H)).
Defined.

(** X6. Every ProbeResult names the probed service, has the keys name,
    status, response_time, status_code, elapsed and possibly error, in
    this order; its [response_time] is its [elapsed] formatted with no
    decimals and "ms", and its status is "running" exactly when its
    status_code is below 500, whether the request was answered or failed.
    The probe has sent exactly one request. *)
Theorem probe_result_invariant (w : World) (func_name : string) (st st' : State)
    (r : dict) :
  check_function w func_name st = (Ok r, st') ->
  dict_lookup "name" r = Some (JStr func_name) /\
  (dict_keys r = ["name"; "status"; "response_time"; "status_code"; "elapsed"] \/
   dict_keys r = ["name"; "status"; "response_time"; "status_code"; "elapsed";
                  "error"]) /\
  (exists x, dict_lookup "elapsed" r = Some (JNum x) /\
             dict_lookup "response_time" r = Some (JStr (py_format_f 0 x +:+ "ms"))) /\
  (exists code, dict_lookup "status_code" r = Some (JNum (PyInt code)) /\
                dict_lookup "status" r
                  = Some (JStr (if code <? 500 then "running" else "error"))) /\
  requests st' = requests st ++ [probe_request func_name].
Proof.
  intros H. pose proof (check_function_ok w _ _ _ _ H) as [_ R].
  apply check_function_detail in H as [(code & _ & -> & _)|(e & _ & _ & -> & _)].
  - split; [reflexivity|]. split; [now left|].
    split; [eexists; split; reflexivity|].
    split; [eexists; split; reflexivity|exact R].
  - split; [reflexivity|]. split; [now right|].
    split; [exists (PyInt 0); split; reflexivity|].
    split; [exists 500; split; reflexivity|exact R].
Qed.

Lemma probe_result_invariant_witness :
  check_function demo_world "getuser" initial
    = (Ok (responded_result "getuser" 200 (elapsed_ms 0 12500)),
       clock_read (request_sent (probe_request "getuser") (clock_read initial))) /\
  dict_keys (responded_result "getuser" 200 (elapsed_ms 0 12500))
    = ["name"; "status"; "response_time"; "status_code"; "elapsed"] /\
  dict_lookup "name" (responded_result "getuser" 200 (elapsed_ms 0 12500))
    = Some (JStr "getuser").
Proof.
  split; [reflexivity|]. split; [reflexivity|].
  exact (proj1 (probe_result_invariant demo_world "getuser" initial _ _ eq_refl)).
Defined.

(** ** The log, the headers and the clock *)

Section HandlerDetail.
Context (w : World).

Lemma check_all_clock_le (names : list string) :
  forall (st st' : State) (r : Result (list dict)),
  check_all w names st = (r, st') -> (clock_reads st <= clock_reads st')%nat.
Proof.
  induction names as [|n names IH]; intros st st' r; cbn [check_all].
  - intros [= <- <-]. lia.
  - intros H.
    assert (forall x st1, check_function w n st = (x, st1) ->
                          (clock_reads st <= clock_reads st1)%nat) as Hone.
    { intros x st1. rewrite check_function_run. cbv zeta.
      destruct (http w _ _) as [code|e]; [|destruct (is_request_exception e)];
        intros [= _ <-]; cbn; lia. }
    apply bind_inv in H as [(x & st1 & H1 & H)|(e & H1 & _)].
    + apply Hone in H1.
      apply bind_inv in H as [(rs & st2 & H2 & H)|(e & H2 & _)].
      * injection H as _ <-. apply IH in H2. lia.
      * apply IH in H2. lia.
    + now apply Hone in H1.
Qed.

(** the three ways [main] ends, with the state each leaves *)
Lemma main_cases (req : HttpRequest.t) (st : State) :
  (HttpRequest.method req = "OPTIONS" /\
   main w req st
   = (Ok (add_cors_headers req (HttpResponse.mk NoBody "text/plain" 200 ∅)), st)) \/
  (HttpRequest.method req <> "OPTIONS" /\
   exists a st1,
     aggregate w st = (Ok a, st1) /\
     main w req st
     = (Ok (add_cors_headers req
              (json_response (status_of w a (clock w (clock_reads st1))))),
        clock_read st1)) \/
  (HttpRequest.method req <> "OPTIONS" /\
   exists e st1,
     aggregate w st = (Raise e, st1) /\
     main w req st
     = (Ok (add_cors_headers req
              (json_response (error_status w e (clock w (clock_reads st1))))),
        clock_read
          (error_logged ("Error getting system status: " +:+ exn_str e) st1))).
Proof.
  destruct (String.eqb_spec (HttpRequest.method req) "OPTIONS") as [Hm|Hm].
  { left. split; [exact Hm|]. now apply main_options. }
  right. destruct (aggregate w st) as [[a|e] st1] eqn:H.
  - left. split; [exact Hm|]. exists a, st1. split; [reflexivity|].
    apply main_get_ok; [exact Hm|]. now apply main_try_ok.
  - right. split; [exact Hm|]. exists e, st1. split; [reflexivity|].
    apply main_get_raise; [exact Hm|]. now apply main_try_raise.
Qed.

Lemma report_of_cors (req : HttpRequest.t) (status : dict) :
  report_of (add_cors_headers req (json_response status)) = status.
Proof. unfold report_of. now rewrite (proj1 (add_cors_headers_body req _)). Qed.

End HandlerDetail.

(** X7. The error log agrees with the report: the handler logs one line,
    "Error getting system status: " followed by the report's [error], when
    the report has an [error]; otherwise it logs nothing -- a probe that
    fails is reported, not logged. *)
Theorem log_agrees_with_report (w : World) (req : HttpRequest.t) (st : State) :
  exists resp st',
    main w req st = (Ok resp, st') /\
    match dict_lookup "error" (report_of resp) with
    | Some v =>
        exists msg, v = JStr msg /\
          error_log st' = error_log st ++ ["Error getting system status: " +:+ msg]
    | None => error_log st' = error_log st
    end.
Proof.
  destruct (main_cases w req st)
    as [[_ H]|[(_ & a & st1 & Ha & H)|(_ & e & st1 & Ha & H)]];
    eexists _, _; (split; [exact H|]).
  - unfold report_of. now rewrite (proj1 (add_cors_headers_body req _)).
  - rewrite report_of_cors. cbn.
    destruct (aggregate_ok w _ _ _ Ha) as [entries [_ _ _ _ _ _ _ _ Hlog]].
    exact Hlog.
  - rewrite report_of_cors. cbn. exists (exn_str e). split; [reflexivity|].
    f_equal.
    apply aggregate_raise in Ha as [[_ ->]|(? & ? & ? & _ & _ & _ & _ & _ & _ & Hlog)];
      [reflexivity|exact Hlog].
Qed.

(** X8. The response carries no header besides the three CORS headers. *)
Theorem only_cors_headers (w : World) (req : HttpRequest.t) (st : State) :
  exists resp st',
    main w req st = (Ok resp, st') /\
    forall (k v : string),
      HttpResponse.headers resp !! k = Some v ->
      k = "access-control-allow-origin" \/
      k = "access-control-allow-methods" \/
      k = "access-control-allow-headers".
Proof.
  destruct (main_response w req st) as (r & st' & Hmain & Hh & _).
  exists (add_cors_headers req r), st'. split; [exact Hmain|].
  intros k v. unfold add_cors_headers.
  destruct (bool_decide _);
    cbn [HttpResponse.set_header HttpResponse.headers]; unfold Headers.set;
    change (Str.lower "Access-Control-Allow-Origin") with "access-control-allow-origin";
    change (Str.lower "Access-Control-Allow-Methods") with "access-control-allow-methods";
    change (Str.lower "Access-Control-Allow-Headers") with "access-control-allow-headers";
    rewrite Hh, !lookup_insert_Some, lookup_empty; intuition congruence.
Qed.

(** ** Edge cases of the request *)

(** X9. With nothing to probe, a request other than OPTIONS sends no
    request, reads the clock once, and is answered with the report of an
    idle, healthy system: state "running", availability "normal", no
    functions, and the metrics 0, 0, "0ms" and "0.0%". *)
Theorem empty_deployment_report (w : World) (req : HttpRequest.t) (st : State)
    (entries : list (string * bool)) :
  HttpRequest.method req <> "OPTIONS" ->
  listdir w = inr entries ->
  probe_set (discovered entries) = [] ->
  exists resp,
    main w req st = (Ok resp, clock_read st) /\
    HttpResponse.status_code resp = 200 /\
    HttpResponse.body resp =
      JsonText
        (JObj [("state", JStr "running");
               ("availability", JStr "normal");
               ("last_checked", JStr (isoformat w (clock w (clock_reads st))));
               ("host_names", JArr [JStr "seeker-functions.azurewebsites.net"]);
               ("functions", JArr []);
               ("metrics",
                JArr [JObj [("name", JStr "Total Functions Checked");
                            ("value", JNum (PyInt 0))];
                      JObj [("name", JStr "Healthy Functions");
                            ("value", JNum (PyInt 0))];
                      JObj [("name", JStr "Average Response Time");
                            ("value", JStr "0ms")];
                      JObj [("name", JStr "Health Percentage");
                            ("value", JStr "0.0%")]])]).
Proof.
  intros Hm L Hempty.
  assert (aggregate w st
          = (Ok (mkAggregates [] [] (PyInt 0) 0 (PyInt 0) (PyInt 0)), st)) as Ha.
  { unfold aggregate.
    rewrite bind_run, get_function_list_run, L, probe_set_discovered, Hempty.
    reflexivity. }
  eexists. split.
  - apply main_get_ok; [exact Hm|]. apply (main_try_ok w req _ _ _ Ha).
  - split; [exact (proj1 (proj2 (add_cors_headers_body req _)))|].
    rewrite (proj1 (add_cors_headers_body req _)). reflexivity.
Qed.

Lemma empty_deployment_report_witness :
  HttpRequest.method post_request <> "OPTIONS" /\
  probe_set (discovered [("getSystemStatus", true); ("callback", true);
                         ("host.json", false); ("tests", true)]) = [] /\
  main empty_world post_request initial
    = (Ok (response_of (main empty_world post_request initial)),
       clock_read initial) /\
  dict_lookup "state" (report_of (response_of (main empty_world post_request initial)))
    = Some (JStr "running").
Proof.
  assert (HttpRequest.method post_request <> "OPTIONS") as Hm by discriminate.
  assert (probe_set (discovered [("getSystemStatus", true); ("callback", true);
                                 ("host.json", false); ("tests", true)]) = [])
    as He by reflexivity.
  split; [exact Hm|]. split; [exact He|].
  destruct (empty_deployment_report empty_world post_request initial _ Hm eq_refl He)
    as (resp & Hmain & _ & Hb).
  rewrite Hmain. cbn [response_of fst].
  split; [reflexivity|].
  unfold report_of. rewrite Hb. reflexivity.
Defined.

(** X10. For a request other than OPTIONS, [last_checked] is the last
    reading of the clock the handler takes, after all probing; on the
    success path the readings before it are two for each probe that was
    answered and one for each probe that failed. *)
Theorem last_checked_is_final_reading (w : World) (req : HttpRequest.t) (st : State) :
  HttpRequest.method req <> "OPTIONS" ->
  exists (resp : HttpResponse.t) (st' : State) (k : nat),
    main w req st = (Ok resp, st') /\
    clock_reads st' = S k /\
    (clock_reads st <= k)%nat /\
    dict_lookup "last_checked" (report_of resp)
      = Some (JStr (isoformat w (clock w k))) /\
    (dict_lookup "functions" (report_of resp) = None \/
     exists rs,
       dict_lookup "functions" (report_of resp) = Some (JArr (map JObj rs)) /\
       k = (clock_reads st + sum_list (map probe_reads rs))%nat).
Proof.
  intros Hm.
  destruct (main_cases w req st)
    as [[Ho _]|[(_ & a & st1 & Ha & H)|(_ & e & st1 & Ha & H)]];
    [contradiction| |].
  - exists (add_cors_headers req
              (json_response (status_of w a (clock w (clock_reads st1))))),
      (clock_read st1), (clock_reads st1).
    apply aggregate_probes in Ha as (entries & _ & Hc).
    pose proof (check_all_clock_le w _ _ _ _ Hc) as Hle.
    apply check_all_detail in Hc as (_ & Hclk & _).
    split; [exact H|]. split; [reflexivity|]. split; [exact Hle|].
    rewrite report_of_cors. split; [reflexivity|].
    right. exists (function_statuses a). split; [reflexivity|exact Hclk].
  - exists (add_cors_headers req
              (json_response (error_status w e (clock w (clock_reads st1))))),
      (clock_read
         (error_logged ("Error getting system status: " +:+ exn_str e) st1)),
      (clock_reads st1).
    split; [exact H|]. split; [reflexivity|].
    rewrite report_of_cors. split.
    + apply aggregate_stops in Ha as [[_ ->]|(entries & _ & Hc)]; [lia|].
      exact (check_all_clock_le w _ _ _ _ Hc).
    + split; [reflexivity|]. now left.
Qed.

Lemma last_checked_is_final_reading_witness :
  HttpRequest.method demo_request <> "OPTIONS" /\
  clock_reads demo_final = 6%nat /\
  dict_lookup "last_checked" (report_of demo_response) = Some (JStr "t+62500us") /\
  exists (resp : HttpResponse.t) (st' : State) (k : nat),
    main demo_world demo_request initial = (Ok resp, st') /\
    clock_reads st' = S k /\
    (clock_reads initial <= k)%nat /\
    dict_lookup "last_checked" (report_of resp)
      = Some (JStr (isoformat demo_world (clock demo_world k))) /\
    (dict_lookup "functions" (report_of resp) = None \/
     exists rs,
       dict_lookup "functions" (report_of resp) = Some (JArr (map JObj rs)) /\
       k = (clock_reads initial + sum_list (map probe_reads rs))%nat).
Proof.
  assert (HttpRequest.method demo_request <> "OPTIONS") as Hm by discriminate.
  split; [exact Hm|]. split; [vm_compute; reflexivity|].
  split; [vm_compute; reflexivity|].
  exact (last_checked_is_final_reading demo_world demo_request initial Hm).
Defined.

(** X11. Any method other than OPTIONS is handled alike: two such
    requests leave the same state and get the same body, and the same
    response altogether when their Origin headers agree. *)
Theorem method_agnostic (w : World) (req req' : HttpRequest.t) (st : State) :
  HttpRequest.method req <> "OPTIONS" ->
  HttpRequest.method req' <> "OPTIONS" ->
  exists (resp resp' : HttpResponse.t) (st' : State),
    main w req st = (Ok resp, st') /\
    main w req' st = (Ok resp', st') /\
    HttpResponse.body resp = HttpResponse.body resp' /\
    (Headers.sent (HttpRequest.headers req) "Origin"
     = Headers.sent (HttpRequest.headers req') "Origin" ->
     resp = resp').
Proof.
  intros Hm Hm'.
  assert (forall r,
            Headers.sent (HttpRequest.headers req) "Origin"
            = Headers.sent (HttpRequest.headers req') "Origin" ->
            add_cors_headers req r = add_cors_headers req' r) as Hcors.
  { intros r Ho. unfold add_cors_headers, Headers.get.
    unfold Headers.sent in Ho. now rewrite Ho. }
  destruct (aggregate w st) as [[a|e] st1] eqn:Ha.
  - eexists _, _, _.
    split; [apply main_get_ok; [exact Hm|]; apply (main_try_ok w req _ _ _ Ha)|].
    split; [apply main_get_ok; [exact Hm'|]; apply (main_try_ok w req' _ _ _ Ha)|].
    split; [|apply Hcors].
    now rewrite !(proj1 (add_cors_headers_body _ _)).
  - eexists _, _, _.
    split; [apply main_get_raise; [exact Hm|]; apply (main_try_raise w req _ _ _ Ha)|].
    split; [apply main_get_raise; [exact Hm'|]; apply (main_try_raise w req' _ _ _ Ha)|].
    split; [|apply Hcors].
    now rewrite !(proj1 (add_cors_headers_body _ _)).
Qed.

Lemma method_agnostic_witness :
  HttpRequest.method demo_request <> "OPTIONS" /\
  HttpRequest.method post_request <> "OPTIONS" /\
  snd (main demo_world demo_request initial) = snd (main demo_world post_request initial) /\
  HttpResponse.body (response_of (main demo_world demo_request initial))
  = HttpResponse.body (response_of (main demo_world post_request initial)).
Proof.
  assert (HttpRequest.method demo_request <> "OPTIONS") as Hm by discriminate.
  assert (HttpRequest.method post_request <> "OPTIONS") as Hm' by discriminate.
  split; [exact Hm|]. split; [exact Hm'|].
  destruct (method_agnostic demo_world demo_request post_request initial Hm Hm')
    as (resp & resp' & st' & H & H' & Hb & _).
  rewrite H, H'. split; [reflexivity|exact Hb].
Defined.

(** ** What is never probed *)

Lemma probe_url_inj (n m : string) :
  url (probe_request n) = base_url +:+ "/" +:+ m -> n = m.
Proof.
  cbn [url probe_request]. intros H.
  apply (inj (String.append base_url)) in H.
  now apply (inj (String.append "/")) in H.
Qed.

(** X12. The aggregator never probes itself: on every path, each request
    the handler sends goes to the URL of a discovered, lower-case name
    other than "getsystemstatus" and "callback", carries the health-check
    header only, and has a timeout of 5 seconds. *)
Theorem never_probes_itself (w : World) (req : HttpRequest.t) (st : State) :
  exists (resp : HttpResponse.t) (st' : State) (sent : list Request),
    main w req st = (Ok resp, st') /\
    requests st' = requests st ++ sent /\
    forall rq, rq ∈ sent ->
      url rq <> base_url +:+ "/" +:+ "getsystemstatus" /\
      url rq <> base_url +:+ "/" +:+ "callback" /\
      sent_headers rq = [("x-ms-client-principal-id", "healthcheck")] /\
      timeout rq = 5 /\
      exists entries n,
        listdir w = inr entries /\ n ∈ discovered entries /\
        Str.lower n = n /\ url rq = base_url +:+ "/" +:+ n.
Proof.
  assert (forall entries probed rq,
            listdir w = inr entries ->
            (forall n, n ∈ probed -> n ∈ probe_set (discovered entries)) ->
            rq ∈ map probe_request probed ->
            url rq <> base_url +:+ "/" +:+ "getsystemstatus" /\
            url rq <> base_url +:+ "/" +:+ "callback" /\
            sent_headers rq = [("x-ms-client-principal-id", "healthcheck")] /\
            timeout rq = 5 /\
            exists entries n,
              listdir w = inr entries /\ n ∈ discovered entries /\
              Str.lower n = n /\ url rq = base_url +:+ "/" +:+ n) as Hsent.
  { intros entries probed rq L Hsub (n & -> & Hn)%list_elem_of_fmap.
    apply Hsub, probe_set_elem in Hn as [Hd Hc].
    destruct (discovered_lower entries n Hd) as (Hl & Hs & _).
    split; [intros E%probe_url_inj; contradiction|].
    split; [intros E%probe_url_inj; contradiction|].
    split; [reflexivity|]. split; [reflexivity|].
    exists entries, n. auto. }
  destruct (main_cases w req st)
    as [[_ H]|[(_ & a & st1 & Ha & H)|(_ & e & st1 & Ha & H)]].
  - eexists _, _, []. split; [exact H|].
    split; [now rewrite app_nil_r|]. intros rq Hrq. now apply elem_of_nil in Hrq.
  - destruct (aggregate_ok w _ _ _ Ha) as [entries [L _ _ _ _ _ _ R _]].
    eexists _, _, _. split; [exact H|]. split; [exact R|].
    intros rq. now apply (Hsent entries (probe_set (discovered entries))).
  - apply aggregate_raise in Ha
      as [[_ ->]|(entries & probed & rest & L & _ & _ & Hp & _ & R & _)].
    + eexists _, _, []. split; [exact H|].
      split; [cbn; now rewrite app_nil_r|].
      intros rq Hrq. now apply elem_of_nil in Hrq.
    + eexists _, _, _. split; [exact H|]. split; [exact R|].
      intros rq. apply (Hsent entries probed); [exact L|].
      intros n Hn. rewrite Hp. apply elem_of_app. now left.
Qed.
